(** * pyidi: the [pyIDI] session class of [src/pyidi/pyidi.py]

    A shallow embedding of the session object that owns a video, a
    displacement-identification method (the plug-in), the tracked points and
    the computed displacements, together with the parts of the Python
    run-time it leans on: [str.split], [int], the format mini-language,
    [os.path], [os.mkdir], [glob.glob], [open], [pickle.dump] and
    [json.dump].

    Conventions.
    - Python [str] values are Rocq strings; the model is exact on ASCII text.
    - A statement that may raise is a computation in a state-and-exception
      monad; the state reached when the exception is raised is kept, as
      Python keeps every assignment made before the [raise].
    - Code of other modules ([pyMRAW], [methods], [selection], [napari]) is
      taken as a parameter of the development. *)

From Stdlib Require Import ZArith QArith Qround Ascii String DecimalString DecimalPos.
From stdpp Require Import base option strings list sorting gmap fin_maps.

Open Scope string_scope.
Open Scope Z_scope.

(** ** Exceptions and results *)

(** The built-in exception classes that the modelled code can raise, each
    with its message (or the offending path). [PluginError] stands for any
    exception raised by code outside this module, by class name. *)
Inductive exn : Type :=
| ValueError (msg : string)
| TypeError (msg : string)
| IndexError (msg : string)
| KeyError (key : string)
| AttributeError (attr : string)
| OverflowError (msg : string)
| FileExistsError (path : string)
| FileNotFoundError (path : string)
| IsADirectoryError (path : string)
| NotADirectoryError (path : string)
| PluginError (class_name : string).

Global Instance exn_eq_dec : EqDecision exn.
Proof. solve_decision. Defined.

(** [isinstance(e, ValueError)] within the classes above. *)
Definition is_ValueError (e : exn) : bool :=
  match e with ValueError _ => true | _ => false end.

Inductive res (A : Type) : Type :=
| Ok (a : A)
| Raise (e : exn).
Global Arguments Ok {A} a.
Global Arguments Raise {A} e.

Global Instance res_ret : MRet res := fun A a => Ok a.
Global Instance res_bind : MBind res := fun A B f m =>
  match m with Ok a => f a | Raise e => Raise e end.

(** ** Strings *)

Module Str.

(** The double-quote character. *)
Definition dquote : ascii := ascii_of_nat 34.
Definition backslash : ascii := ascii_of_nat 92.
Definition slash : ascii := ascii_of_nat 47.

(** [s.split(c)] for a one-character separator. *)
Fixpoint split (c : ascii) (s : string) : list string :=
  match s with
  | EmptyString => [EmptyString]
  | String a s' =>
      if Ascii.eqb a c then EmptyString :: split c s'
      else match split c s' with
           | [] => [String a EmptyString]
           | w :: ws => String a w :: ws
           end
  end.

(** [l[-1]] and [l[-2]] on a list. *)
Definition index_m1 {A} (l : list A) : res A :=
  match reverse l with
  | x :: _ => Ok x
  | [] => Raise (IndexError "list index out of range")
  end.

Definition index_m2 {A} (l : list A) : res A :=
  match reverse l with
  | _ :: x :: _ => Ok x
  | _ => Raise (IndexError "list index out of range")
  end.

(** [l[0]]. *)
Definition index_0 {A} (l : list A) : res A :=
  match l with
  | x :: _ => Ok x
  | [] => Raise (IndexError "list index out of range")
  end.

Fixpoint all (p : ascii -> bool) (s : string) : bool :=
  match s with
  | EmptyString => true
  | String a s' => p a && all p s'
  end.

Fixpoint any (p : ascii -> bool) (s : string) : bool :=
  match s with
  | EmptyString => false
  | String a s' => p a || any p s'
  end.

(** [s.rstrip(chars)] and [s.lstrip(chars)], the set of characters given
    as a predicate. *)
Fixpoint rstrip (p : ascii -> bool) (s : string) : string :=
  match s with
  | EmptyString => EmptyString
  | String a s' =>
      match rstrip p s' with
      | EmptyString => if p a then EmptyString else String a EmptyString
      | r => String a r
      end
  end.

Fixpoint lstrip (p : ascii -> bool) (s : string) : string :=
  match s with
  | EmptyString => EmptyString
  | String a s' => if p a then lstrip p s' else s
  end.

(** Last character, if any. *)
Fixpoint last (s : string) : option ascii :=
  match s with
  | EmptyString => None
  | String a EmptyString => Some a
  | String _ s' => last s'
  end.

Definition startswith (pre s : string) : bool := String.prefix pre s.

(** [s[len(pre):]] when [s] starts with [pre]. *)
Fixpoint drop_prefix (pre s : string) : option string :=
  match pre, s with
  | EmptyString, _ => Some s
  | String a pre', String b s' =>
      if Ascii.eqb a b then drop_prefix pre' s' else None
  | String _ _, EmptyString => None
  end.

(** [fill * n]. *)
Fixpoint replicate (n : nat) (fill : ascii) : string :=
  match n with
  | O => EmptyString
  | S n' => String fill (replicate n' fill)
  end.

(** [format(s, fill + '>' + str(width))]: right-aligned in [width]. *)
Definition rjust (width : nat) (fill : ascii) (s : string) : string :=
  replicate (width - String.length s) fill +:+ s.

(** [sep.join(l)]. *)
Fixpoint join (sep : string) (l : list string) : string :=
  match l with
  | [] => EmptyString
  | [x] => x
  | x :: l' => x +:+ sep +:+ join sep l'
  end.

End Str.

(** ** Integers as text *)

Module PyInt.

(** The characters that [str.strip] and [int] skip as white space
    (ASCII part: TAB..CR, FS..US and the space). *)
Definition is_space (a : ascii) : bool :=
  let n := nat_of_ascii a in
  ((9 <=? n)%nat && (n <=? 13)%nat) || ((28 <=? n)%nat && (n <=? 32)%nat).

Definition digit (a : ascii) : option Z :=
  let n := Z.of_nat (nat_of_ascii a) in
  if (48 <=? n) && (n <=? 57) then Some (n - 48) else None.

Fixpoint digits (acc : Z) (s : string) : option Z :=
  match s with
  | EmptyString => Some acc
  | String a s' =>
      match digit a with
      | Some d => digits (10 * acc + d) s'
      | None => None
      end
  end.

Definition invalid_literal (s : string) : exn :=
  ValueError ("invalid literal for int() with base 10: '" +:+ s +:+ "'").

(** [int(s)] for a string without underscores (the only use below is on a
    piece of [split('_')]): optional white space around an optional sign
    and at least one decimal digit. *)
Definition int (s : string) : res Z :=
  let body := Str.rstrip is_space (Str.lstrip is_space s) in
  let '(neg, ds) :=
    match body with
    | String "-" t => (true, t)
    | String "+" t => (false, t)
    | _ => (false, body)
    end in
  match ds with
  | EmptyString => Raise (invalid_literal s)
  | _ => match digits 0 ds with
         | Some n => Ok (if neg : bool then - n else n)
         | None => Raise (invalid_literal s)
         end
  end.

(** [str(n)]. *)
Definition str (n : Z) : string := NilZero.string_of_int (Z.to_int n).

(** [float(n)] as the integer value of the nearest double (ties to even);
    [OverflowError] beyond the double range. *)
Definition to_float (n : Z) : res Z :=
  let a := Z.abs n in
  let bits := if a =? 0 then 0 else Z.log2 a + 1 in
  if bits <=? 53 then Ok n
  else
    let sh := bits - 53 in
    let q := Z.shiftr a sh in
    let r := Z.land a (Z.ones sh) in
    let half := Z.shiftl 1 (sh - 1) in
    let q' := if (half <? r) || ((r =? half) && Z.odd q) then q + 1 else q in
    let v := Z.shiftl q' sh in
    if Z.shiftl 1 1024 <=? v
    then Raise (OverflowError "int too large to convert to float")
    else Ok (Z.sgn n * v).

(** [f'{n:0>3.0f}']: the integer is converted to a float, printed with no
    decimals, then right-aligned in three columns with zeros. *)
Definition format_03_0f (n : Z) : res string :=
  v ← to_float n; Ok (Str.rjust 3 "0" (str v)).

End PyInt.

(** ** [os.path] *)

Inductive platform : Type := Posix | Windows.

Module OsPath.
Section WithPlatform.
Variable os : platform.

(** [os.sep]. *)
Definition sep : ascii :=
  match os with Posix => Str.slash | Windows => Str.backslash end.

(** The characters [os.path] treats as separators: the slash, and on
    Windows the backslash too. *)
Definition is_sep (a : ascii) : bool :=
  match os with
  | Posix => Ascii.eqb a Str.slash
  | Windows => Ascii.eqb a Str.slash || Ascii.eqb a Str.backslash
  end.

(** [p[:i], p[i:]] with [i] just after the last separator. *)
Fixpoint cut (p : string) : option (string * string) :=
  match p with
  | EmptyString => None
  | String a p' =>
      match cut p' with
      | Some (h, t) => Some (String a h, t)
      | None => if is_sep a then Some (String a EmptyString, p') else None
      end
  end.

(** [os.path.split(p)]. On Windows the drive and UNC prefixes that
    [ntpath] sets apart are not modelled: paths there are drive-less
    (the predicate [drive_less] below, which the statements over all
    paths assume). *)
Definition split (p : string) : string * string :=
  match cut p with
  | None => (EmptyString, p)
  | Some (head, tail) =>
      if Str.all is_sep head then (head, tail)
      else (Str.rstrip is_sep head, tail)
  end.

(** What [os.path.join] puts between [a] and a relative [b]: a separator,
    unless [a] is empty or ends with one. *)
Definition glue (a : string) : string :=
  match Str.last a with
  | None => EmptyString
  | Some l => if is_sep l then EmptyString else String sep EmptyString
  end.

(** [os.path.join(a, b)], two arguments, same restriction: an absolute
    [b] replaces [a]. *)
Definition join (a b : string) : string :=
  match b with
  | String c _ => if is_sep c then b else a +:+ (glue a +:+ b)
  | EmptyString => a +:+ glue a
  end.

Definition dirname (p : string) : string := fst (split p).
End WithPlatform.
End OsPath.

Global Arguments OsPath.join : simpl never.
Global Arguments OsPath.split : simpl never.

(** ** Python values *)

(** A [numpy.ndarray] (exact type): element type, shape and the elements in
    row-major order. *)
Record ndarray : Type := {
  dtype : string;
  shape : list nat;
  elems : list Q;
}.

(** The values that reach the session: the constructor argument, the video
    metadata, the settings mapping of a plug-in, arrays. [VObject] is an
    instance of any other class, by class name. A [dict] keeps its items in
    insertion order; its keys are strings. *)
#[warnings="-register-all"]
Inductive pyvalue : Type :=
| VNone
| VBool (b : bool)
| VInt (n : Z)
| VFloat (repr : string)
| VStr (s : string)
| VList (l : list pyvalue)
| VDict (items : list (string * pyvalue))
| VArray (a : ndarray)
| VObject (class_name : string).

(** [type(v).__name__]. *)
Definition type_name (v : pyvalue) : string :=
  match v with
  | VNone => "NoneType"
  | VBool _ => "bool"
  | VInt _ => "int"
  | VFloat _ => "float"
  | VStr _ => "str"
  | VList _ => "list"
  | VDict _ => "dict"
  | VArray _ => "ndarray"
  | VObject c => c
  end.

(** [d[key]] on a value. *)
Definition getitem (d : pyvalue) (key : string) : res pyvalue :=
  match d with
  | VDict items =>
      match list_find (fun kv => bool_decide (kv.1 = key)) items with
      | Some (_, (_, v)) => Ok v
      | None => Raise (KeyError key)
      end
  | _ => Raise (TypeError ("'" +:+ type_name d +:+ "' object is not subscriptable"))
  end.

(** [a.shape[i]]. *)
Definition shape_at (a : ndarray) (i : nat) : res pyvalue :=
  match shape a !! i with
  | Some n => Ok (VInt (Z.of_nat n))
  | None => Raise (IndexError "tuple index out of range")
  end.

(** [len(a)]. *)
Definition array_len (a : ndarray) : res nat :=
  match shape a with
  | n :: _ => Ok n
  | [] => Raise (TypeError "len() of unsized object")
  end.

(** ** [json.dump(obj, f, sort_keys=True, indent=2)] *)

Module Json.

Definition hex_digit (n : nat) : ascii :=
  ascii_of_nat (if (n <? 10)%nat then 48 + n else 87 + n)%nat.

(** One character inside a JSON string, [ensure_ascii] on. *)
Definition escape_char (a : ascii) : string :=
  let n := nat_of_ascii a in
  if Ascii.eqb a Str.dquote then String Str.backslash (String Str.dquote EmptyString)
  else if Ascii.eqb a Str.backslash then String Str.backslash (String Str.backslash EmptyString)
  else if (n =? 10)%nat then String Str.backslash "n"
  else if (n =? 13)%nat then String Str.backslash "r"
  else if (n =? 9)%nat then String Str.backslash "t"
  else if (n =? 8)%nat then String Str.backslash "b"
  else if (n =? 12)%nat then String Str.backslash "f"
  else if ((32 <=? n) && (n <=? 126))%nat then String a EmptyString
  else String Str.backslash
         ("u00" +:+ String (hex_digit (n / 16)) (String (hex_digit (n mod 16)) EmptyString)).

Fixpoint escape (s : string) : string :=
  match s with
  | EmptyString => EmptyString
  | String a s' => escape_char a +:+ escape s'
  end.

(** [encoder(s)]: the quoted, escaped string. *)
Definition quote (s : string) : string :=
  String Str.dquote (escape s) +:+ String Str.dquote EmptyString.

(** [floatstr]: [float.__repr__] except for the three special values. *)
Definition floatstr (repr : string) : string :=
  if bool_decide (repr = "nan") then "NaN"
  else if bool_decide (repr = "inf") then "Infinity"
  else if bool_decide (repr = "-inf") then "-Infinity"
  else repr.

Definition key_le (x y : string * pyvalue) : Prop := String.le x.1 y.1.
Global Instance key_le_dec : RelDecision key_le.
Proof. intros x y. unfold key_le. apply _. Defined.

(** [sort_keys=True]: every dictionary is written with [sorted(d.items())].
    The order is fixed on the value before it is written. *)
Fixpoint sort_keys (v : pyvalue) : pyvalue :=
  match v with
  | VList l => VList (List.map sort_keys l)
  | VDict items =>
      VDict (merge_sort key_le (List.map (fun kv => (kv.1, sort_keys kv.2)) items))
  | _ => v
  end.

(** ['\n' + indent * level] with [indent = 2] spaces. *)
Definition newline_indent (level : nat) : string :=
  String (ascii_of_nat 10) (Str.replicate (2 * level) " ").

Definition not_serializable (v : pyvalue) : exn :=
  TypeError ("Object of type " +:+ type_name v +:+ " is not JSON serializable").

(** The chunks the encoder has yielded, and the exception that stopped it
    if one did: [json.dump] writes each chunk as it comes, so the text is
    what the file holds in either case. *)
Fixpoint iterencode (level : nat) (v : pyvalue) : string * option exn :=
  match v with
  | VNone => ("null", None)
  | VBool true => ("true", None)
  | VBool false => ("false", None)
  | VInt n => (PyInt.str n, None)
  | VFloat r => (floatstr r, None)
  | VStr s => (quote s, None)
  | VList [] => ("[]", None)
  | VList l =>
      let nl := newline_indent (S level) in
      let body :=
        (fix items (first : bool) (l : list pyvalue) : string * option exn :=
           match l with
           | [] => (EmptyString, None)
           | x :: l' =>
               let pre := if first then nl else "," +:+ nl in
               match iterencode (S level) x with
               | (t, Some e) => (pre +:+ t, Some e)
               | (t, None) =>
                   let '(t', e') := items false l' in (pre +:+ t +:+ t', e')
               end
           end) true l in
      match body with
      | (t, Some e) => ("[" +:+ t, Some e)
      | (t, None) => ("[" +:+ t +:+ newline_indent level +:+ "]", None)
      end
  | VDict [] => ("{}", None)
  | VDict kvs =>
      let nl := newline_indent (S level) in
      let body :=
        (fix items (first : bool) (l : list (string * pyvalue))
           : string * option exn :=
           match l with
           | [] => (EmptyString, None)
           | (k, x) :: l' =>
               let pre := (if first then nl else "," +:+ nl) +:+ quote k +:+ ": " in
               match iterencode (S level) x with
               | (t, Some e) => (pre +:+ t, Some e)
               | (t, None) =>
                   let '(t', e') := items false l' in (pre +:+ t +:+ t', e')
               end
           end) true kvs in
      match body with
      | (t, Some e) => ("{" +:+ t, Some e)
      | (t, None) => ("{" +:+ t +:+ newline_indent level +:+ "}", None)
      end
  | VArray _ | VObject _ => (EmptyString, Some (not_serializable v))
  end.

Definition dump (obj : pyvalue) : string * option exn :=
  iterencode 0 (sort_keys obj).

(** The text of a member [key: value] and of a top-level object with the
    given members: one member a line, two spaces in, commas between. *)
Definition member (key text : string) : string := quote key +:+ ": " +:+ text.

Definition object_text (members : list string) : string :=
  "{" +:+ newline_indent 1 +:+
  Str.join ("," +:+ newline_indent 1) members +:+
  newline_indent 0 +:+ "}".

End Json.

Global Arguments Json.dump : simpl never.

(** ** The world outside the session *)

(** What a file holds: a pickled value, or text. *)
Inductive content : Type :=
| Pickled (v : pyvalue)
| Text (s : string).

Inductive node : Type :=
| Dir
| File (c : content).

(** A call into the bound plug-in, in the order the session makes them. *)
Inductive call : Type :=
| CalculateDisplacements
| CreateSettingsDict
| ClearTempFiles.

Global Instance call_eq_dec : EqDecision call.
Proof. solve_decision. Defined.

(** The file system maps a path, written as [os.path.join] builds it, to
    what is there; [clock] is the text [datetime.now().strftime(...)] gives;
    [stdout] collects what [print] writes; [calls] logs the plug-in calls. *)
Record world : Type := {
  os : platform;
  fs : gmap string node;
  clock : string;
  stdout : list string;
  calls : list call;
}.

Definition with_fs (f : gmap string node) (w : world) : world :=
  {| os := os w; fs := f; clock := clock w; stdout := stdout w; calls := calls w |}.
Definition with_stdout (o : list string) (w : world) : world :=
  {| os := os w; fs := fs w; clock := clock w; stdout := o; calls := calls w |}.
Definition with_calls (c : list call) (w : world) : world :=
  {| os := os w; fs := fs w; clock := clock w; stdout := stdout w; calls := c |}.

(** Whether the directory that is to hold [p] is there; the empty parent is
    the working directory. *)
Definition parent_check (w : world) (p : string) : res unit :=
  let d := OsPath.dirname (os w) p in
  match d with
  | EmptyString => Ok tt
  | _ => match fs w !! d with
         | Some Dir => Ok tt
         | Some (File _) => Raise (NotADirectoryError p)
         | None => Raise (FileNotFoundError p)
         end
  end.

(** [os.path.exists(p)]. *)
Definition os_path_exists (w : world) (p : string) : bool :=
  bool_decide (is_Some (fs w !! p)).

(** [os.mkdir(p)]. *)
Definition os_mkdir (p : string) (w : world) : res world :=
  match p with
  | EmptyString => Raise (FileNotFoundError p)
  | _ =>
      match fs w !! p with
      | Some _ => Raise (FileExistsError p)
      | None => parent_check w p;; Ok (with_fs (<[p := Dir]> (fs w)) w)
      end
  end.

(** [open(p, 'w')] or [open(p, 'wb')]: the file is created or emptied. *)
Definition open_w (p : string) (w : world) : res world :=
  match fs w !! p with
  | Some Dir => Raise (IsADirectoryError p)
  | _ => parent_check w p;; Ok (with_fs (<[p := File (Text EmptyString)]> (fs w)) w)
  end.

(** What an open file holds once the writer is done with it. *)
Definition write (p : string) (c : content) (w : world) : world :=
  with_fs (<[p := File c]> (fs w)) w.

Module Glob.

Definition lower (a : ascii) : ascii :=
  let n := nat_of_ascii a in
  if ((65 <=? n) && (n <=? 90))%nat then ascii_of_nat (n + 32) else a.

Fixpoint lower_str (s : string) : string :=
  match s with
  | EmptyString => EmptyString
  | String a s' => String (lower a) (lower_str s')
  end.

(** [fnmatch] of a name against ['analysis_*']; names are compared after
    [os.path.normcase], which folds case on Windows. *)
Definition matches (o : platform) (name : string) : bool :=
  Str.startswith "analysis_"
    (match o with Posix => name | Windows => lower_str name end).

(** The name of [p] below the directory [d], when [p] is an entry of [d]. *)
Definition entry_of (o : platform) (d p : string) : option string :=
  match Str.drop_prefix (OsPath.join o d EmptyString) p with
  | Some (String a n) =>
      if Str.any (OsPath.is_sep o) (String a n) then None else Some (String a n)
  | _ => None
  end.

Definition run_dir (o : platform) (d : string) (pn : string * node) : option string :=
  match pn.2 with
  | Dir =>
      match entry_of o d pn.1 with
      | Some name =>
          if matches o name
          then Some (OsPath.join o (OsPath.join o d name) EmptyString)
          else None
      | None => None
      end
  | File _ => None
  end.

(** [glob.glob(os.path.join(d, 'analysis_*/'))] for a directory path [d]
    free of the pattern characters [*], [?] and [[] (the predicate
    [has_magic] below, which the statements over all paths exclude): the
    sub-directories of [d] whose name matches, each with a trailing
    separator, in the order the listing gives them. *)
Definition glob_runs (w : world) (d : string) : list string :=
  omap (run_dir (os w) d) (map_to_list (fs w)).

End Glob.

(** [sorted(l)] on strings. *)
Definition sorted (l : list string) : list string := merge_sort String.le l.

(** ** Plug-ins *)

Definition kwargs : Type := list (string * pyvalue).

(** The attributes of a plug-in instance that the session looks at. *)
Record plugin : Type := {
  plugin_class : string;
  has_calculate_displacements : bool;
  plugin_displacements : option pyvalue;
  process_number : option Z;
  has_clear_temp_files : bool;
  has_create_settings_dict : bool;
  has_show_points : bool;
  subset_size : option Q;
  roi_size : option Q;
}.

(** What can be handed to [set_method] besides a name: any object, with
    whether it is callable, whether it has a [calculate_displacements]
    attribute, and what calling it with the session and the keyword
    arguments gives. *)
Record pyobject : Type := {
  obj_name : string;
  obj_doc : option string;
  obj_callable : bool;
  obj_has_calculate_displacements : bool;
  obj_call : kwargs -> res plugin;
}.

Inductive method_arg : Type :=
| MName (name : string)
| MObject (o : pyobject).

(** An entry of [available_methods]. *)
Record method_entry : Type := {
  IDIMethod : pyobject;
  description : option string;
}.

(** ** The session object *)

(** The attributes of a [pyIDI] instance; [None] is an attribute that has
    not been assigned (what [hasattr] tests). *)
Record pyIDI : Type := {
  cih_file : pyvalue;
  root : string;
  available_methods : list (string * method_entry);
  mraw : pyvalue;
  info : pyvalue;
  N : pyvalue;
  image_width : pyvalue;
  image_height : pyvalue;
  method_name : option string;
  method : option plugin;
  points : option pyvalue;
  displacements : option pyvalue;
  root_analysis : option string;
  root_this_analysis : option string;
}.

Definition with_method_name (x : option string) (s : pyIDI) : pyIDI :=
  {| cih_file := cih_file s; root := root s; available_methods := available_methods s;
     mraw := mraw s; info := info s; N := N s; image_width := image_width s;
     image_height := image_height s; method_name := x; method := method s;
     points := points s; displacements := displacements s;
     root_analysis := root_analysis s; root_this_analysis := root_this_analysis s |}.
Definition with_method (x : option plugin) (s : pyIDI) : pyIDI :=
  {| cih_file := cih_file s; root := root s; available_methods := available_methods s;
     mraw := mraw s; info := info s; N := N s; image_width := image_width s;
     image_height := image_height s; method_name := method_name s; method := x;
     points := points s; displacements := displacements s;
     root_analysis := root_analysis s; root_this_analysis := root_this_analysis s |}.
Definition with_points (x : option pyvalue) (s : pyIDI) : pyIDI :=
  {| cih_file := cih_file s; root := root s; available_methods := available_methods s;
     mraw := mraw s; info := info s; N := N s; image_width := image_width s;
     image_height := image_height s; method_name := method_name s; method := method s;
     points := x; displacements := displacements s;
     root_analysis := root_analysis s; root_this_analysis := root_this_analysis s |}.
Definition with_displacements (x : option pyvalue) (s : pyIDI) : pyIDI :=
  {| cih_file := cih_file s; root := root s; available_methods := available_methods s;
     mraw := mraw s; info := info s; N := N s; image_width := image_width s;
     image_height := image_height s; method_name := method_name s; method := method s;
     points := points s; displacements := x;
     root_analysis := root_analysis s; root_this_analysis := root_this_analysis s |}.
Definition with_root_analysis (x : option string) (s : pyIDI) : pyIDI :=
  {| cih_file := cih_file s; root := root s; available_methods := available_methods s;
     mraw := mraw s; info := info s; N := N s; image_width := image_width s;
     image_height := image_height s; method_name := method_name s; method := method s;
     points := points s; displacements := displacements s;
     root_analysis := x; root_this_analysis := root_this_analysis s |}.
Definition with_root_this_analysis (x : option string) (s : pyIDI) : pyIDI :=
  {| cih_file := cih_file s; root := root s; available_methods := available_methods s;
     mraw := mraw s; info := info s; N := N s; image_width := image_width s;
     image_height := image_height s; method_name := method_name s; method := method s;
     points := points s; displacements := displacements s;
     root_analysis := root_analysis s; root_this_analysis := x |}.

(** The code of the other modules, as far as the session calls it. *)
Record collaborators : Type := {
  (** [pyMRAW.load_video] *)
  load_video : string -> res (pyvalue * pyvalue);
  (** the classes of [methods] listed in [available_method_shortcuts] *)
  SimplifiedOpticalFlow : pyobject;
  LucasKanade : pyobject;
  LucasKanadeSc : pyobject;
  LucasKanadeSc2 : pyobject;
  (** the methods of a plug-in instance: each gives the instance as the
      call leaves it, or raises; what a plug-in does to the session object
      or to scratch files of its own is not part of this model *)
  calculate_displacements : pyIDI -> plugin -> kwargs -> res plugin;
  create_settings_dict : plugin -> res pyvalue;
  clear_temp_files : plugin -> res plugin;
  (** [selection.get_roi_grid] *)
  get_roi_grid : ndarray -> Z * Z -> Z -> option ndarray -> res ndarray;
  (** [get_points] of a plug-in instance: the value it leaves in the
      [points] attribute of the session *)
  get_points : pyIDI -> plugin -> kwargs -> res pyvalue;
}.

(** ** Statements that may raise *)

(** A computation over a state [S]: the result or the exception, and the
    state as it stands at that point. *)
Definition M (S A : Type) : Type := S -> res A * S.

Global Instance M_ret {S} : MRet (M S) := fun A a st => (Ok a, st).
Global Instance M_bind {S} : MBind (M S) := fun A B f m st =>
  match m st with
  | (Ok a, st') => f a st'
  | (Raise e, st') => (Raise e, st')
  end.

Definition raise {S A} (e : exn) : M S A := fun st => (Raise e, st).
Definition lift {S A} (r : res A) : M S A := fun st => (r, st).
Definition get {S} : M S S := fun st => (Ok st, st).
Definition modify {S} (f : S -> S) : M S unit := fun st => (Ok tt, f st).

(** The session and the world it runs in. *)
Record state : Type := {
  self : pyIDI;
  env : world;
}.

Definition on_self (f : pyIDI -> pyIDI) : M state unit :=
  modify (fun st => {| self := f (self st); env := env st |}).
Definition on_env (f : world -> world) : M state unit :=
  modify (fun st => {| self := self st; env := f (env st) |}).

(** A system call: the world changes only when it succeeds. *)
Definition syscall (f : world -> res world) : M state unit :=
  fun st =>
    match f (env st) with
    | Ok w => (Ok tt, {| self := self st; env := w |})
    | Raise e => (Raise e, st)
    end.

(** [self.<name>]: [AttributeError] when the attribute has not been set. *)
Definition getattr {A} (name : string) (field : pyIDI -> option A) : M state A :=
  fun st =>
    match field (self st) with
    | Some a => (Ok a, st)
    | None => (Raise (AttributeError name), st)
    end.

(** ** The class [pyIDI] *)

Section Session.
Variable ext : collaborators.

(** The module constant [available_method_shortcuts]. *)
Definition available_method_shortcuts : list (string * pyobject) :=
  [ ("sof", SimplifiedOpticalFlow ext);
    ("lk", LucasKanade ext);
    ("lk_scipy", LucasKanadeSc ext);
    ("lk_scipy2", LucasKanadeSc2 ext) ].

(** [d[key]] on a dictionary built by [dict(pairs)]. *)
Definition dict_get {A} (d : list (string * A)) (key : string) : option A :=
  snd <$> (snd <$> list_find (fun kv => bool_decide (kv.1 = key)) d).

(** [pyIDI.__init__]. The two [tools.update_docstring] calls of the class
    rewrite documentation strings only and are left out here and in
    [set_method]. *)
Definition init (w : world) (cih : pyvalue) : res pyIDI :=
  let root0 :=
    match cih with
    | VStr p => (OsPath.split (os w) p).1
    | _ => EmptyString
    end in
  let methods :=
    List.map (fun km => (km.1, {| IDIMethod := km.2; description := obj_doc km.2 |}))
      available_method_shortcuts in
  let blank mraw0 info0 n0 width0 height0 :=
    {| cih_file := cih; root := root0; available_methods := methods;
       mraw := mraw0; info := info0; N := n0;
       image_width := width0; image_height := height0;
       method_name := None; method := None; points := None;
       displacements := None; root_analysis := None;
       root_this_analysis := None |} in
  match cih with
  | VStr p =>
      video ← load_video ext p;
      n ← getitem video.2 "Total Frame";
      width ← getitem video.2 "Image Width";
      height ← getitem video.2 "Image Height";
      Ok (blank video.1 video.2 n width height)
  | VArray a =>
      n ← shape_at a 0;
      height ← shape_at a 1;
      width ← shape_at a 2;
      Ok (blank cih (VDict []) n width height)
  | _ =>
      Raise (ValueError
        "`cih_file` must be either a cih filename or a 3D array (N_time, height, width)")
  end.

Definition not_an_IDIMethod : exn :=
  ValueError "The input `method` is not a valid `IDIMethod`.".
Definition not_a_method : exn :=
  ValueError
    "method must either be a valid name from `available_methods` or an `IDIMethod`.".

(** [pyIDI.set_method]. A [str] is not callable, so a name that is not a
    key of [available_methods] falls through to the last branch. *)
Definition set_method (m : method_arg) (kw : kwargs) : M state unit :=
  st ← get;
  match m with
  | MName name =>
      match dict_get (available_methods (self st)) name with
      | Some entry =>
          on_self (with_method_name (Some name));;
          p ← lift (obj_call (IDIMethod entry) kw);
          on_self (with_method (Some p))
      | None => raise not_a_method
      end
  | MObject o =>
      if obj_callable o && obj_has_calculate_displacements o then
        on_self (with_method_name (Some "external_method"));;
        match obj_call o kw with
        | Ok p => on_self (with_method (Some p))
        | Raise _ => raise not_an_IDIMethod
        end
      else raise not_a_method
  end;;
  (* the argument [self.method.calculate_displacements] of the docstring
     update *)
  p ← getattr "method" method;
  if has_calculate_displacements p then mret tt
  else raise (AttributeError "calculate_displacements").

(** [pyIDI.set_points], with [points] an array when it is given (then
    [np.asarray] returns it as it is). *)
Definition set_points (pts : option ndarray) (m : option method_arg)
    (kw : kwargs) : M state unit :=
  match pts with
  | None =>
      st ← get;
      match method (self st) with
      | None =>
          match m with
          | Some m' => set_method m' []
          | None =>
              raise (ValueError
                "Invalid arguments. Please input points, or set the IDI method first.")
          end
      | Some _ => mret tt
      end;;
      p ← getattr "method" method;
      st' ← get;
      v ← lift (get_points ext (self st') p kw);
      on_self (with_points (Some v))
  | Some a => on_self (with_points (Some (VArray a)))
  end.

(** [os.path.split(self.cih_file)]: only a [str] is a path. *)
Definition as_path (v : pyvalue) : res string :=
  match v with
  | VStr p => Ok p
  | _ => Raise (TypeError
           ("expected str, bytes or os.PathLike object, not " +:+ type_name v))
  end.

(** The [if analyses: ... else: n = 0] block of
    [create_analysis_directory]: the number of the last run. The [print]
    evaluates [last_an.split('\\')[-2]] before the assignment of [n]
    does. *)
Definition last_run_number (analyses : list string) : M state Z :=
  match analyses with
  | [] => mret 0
  | _ =>
      last_an ← lift (Str.index_m1 (sorted analyses));
      shown ← lift (Str.index_m2 (Str.split Str.backslash last_an));
      on_env (fun w => with_stdout (stdout w ++ [last_an +:+ " " +:+ shown]) w);;
      seg ← lift (Str.index_m2 (Str.split Str.backslash last_an));
      suffix ← lift (Str.index_m1 (Str.split "_" seg));
      lift (PyInt.int suffix)
  end.

(** [pyIDI.create_analysis_directory]. *)
Definition create_analysis_directory : M state unit :=
  st ← get;
  p ← lift (as_path (cih_file (self st)));
  stem ← lift (Str.index_0 (Str.split "." (OsPath.split (os (env st)) p).2));
  let ra := OsPath.join (os (env st)) (root (self st)) (stem +:+ "_pyidi_analysis") in
  on_self (with_root_analysis (Some ra));;
  (if os_path_exists (env st) ra then mret tt else syscall (os_mkdir ra));;
  st1 ← get;
  n ← last_run_number (Glob.glob_runs (env st1) ra);
  idx ← lift (PyInt.format_03_0f (n + 1));
  let rta := OsPath.join (os (env st)) ra ("analysis_" +:+ idx) in
  on_self (with_root_this_analysis (Some rta));;
  syscall (os_mkdir rta).

(** A call of a method of the bound plug-in: logged, and the instance is
    left as the call leaves it. *)
Definition log_call (c : call) : M state unit :=
  on_env (fun w => with_calls (calls w ++ [c]) w).

(** The dictionary [out] of [save]; the time stamp is read off the clock. *)
Definition settings_record (s : pyIDI) (w : world) (settings : pyvalue)
    (name : string) : pyvalue :=
  VDict [ ("info", info s);
          ("createdate", VStr (clock w));
          ("cih_file", cih_file s);
          ("settings", settings);
          ("method", VStr name) ].

(** [pyIDI.save]. Each [pickle.dump] evaluates the attribute before it
    opens the file. *)
Definition save (root0 : string) : M state unit :=
  st ← get;
  let o := os (env st) in
  d ← getattr "displacements" displacements;
  syscall (open_w (OsPath.join o root0 "results.pkl"));;
  on_env (write (OsPath.join o root0 "results.pkl") (Pickled d));;
  pts ← getattr "points" points;
  syscall (open_w (OsPath.join o root0 "points.pkl"));;
  on_env (write (OsPath.join o root0 "points.pkl") (Pickled pts));;
  p ← getattr "method" method;
  (if has_create_settings_dict p then mret tt
   else raise (AttributeError "create_settings_dict"));;
  log_call CreateSettingsDict;;
  settings ← lift (create_settings_dict ext p);
  name ← getattr "method_name" method_name;
  let out := settings_record (self st) (env st) settings name in
  syscall (open_w (OsPath.join o root0 "settings.txt"));;
  let '(text, failure) := Json.dump out in
  on_env (write (OsPath.join o root0 "settings.txt") (Text text));;
  match failure with
  | Some e => raise e
  | None => mret tt
  end.

(** The block of [get_displacements] under the comment "auto-save and
    clearing temp files", for the plug-in [p'] as the computation left
    it. *)
Definition autosave_and_clear (autosave : bool) (p' : plugin) : M state unit :=
  match process_number p' with
  | Some rank =>
      if rank =? 0 then
        (if autosave then
           create_analysis_directory;;
           rta ← getattr "root_this_analysis" root_this_analysis;
           save rta
         else mret tt);;
        (if has_clear_temp_files p' then mret tt
         else raise (AttributeError "clear_temp_files"));;
        log_call ClearTempFiles;;
        p'' ← lift (clear_temp_files ext p');
        on_self (with_method (Some p''))
      else mret tt
  | None => mret tt
  end.

(** [pyIDI.get_displacements]. *)
Definition get_displacements (autosave : bool) (kw : kwargs) : M state pyvalue :=
  st ← get;
  match method (self st) with
  | Some p =>
      (if has_calculate_displacements p then mret tt
       else raise (AttributeError "calculate_displacements"));;
      log_call CalculateDisplacements;;
      p' ← lift (calculate_displacements ext (self st) p kw);
      on_self (with_method (Some p'));;
      d ← lift (match plugin_displacements p' with
                | Some d => Ok d
                | None => Raise (AttributeError "displacements")
                end);
      on_self (with_displacements (Some d));;
      autosave_and_clear autosave p';;
      getattr "displacements" displacements
  | None =>
      raise (ValueError
        "IDI method has not yet been set. Please call `set_method()` first.")
  end.

End Session.

Global Arguments create_analysis_directory : simpl never.
Global Arguments save : simpl never.
Global Arguments last_run_number : simpl never.
Global Arguments autosave_and_clear : simpl never.

(** ** The point selector of [pyIDI.__call__] *)

Module Np.

(** [np.round] on one element: to the nearest integer, ties to even. *)
Definition round (q : Q) : Z :=
  let f := Qfloor q in
  match Qcompare (q - inject_Z f) (1 # 2) with
  | Lt => f
  | Gt => f + 1
  | Eq => if Z.even f then f else f + 1
  end.

(** [np.round(a).astype(int)]. *)
Definition round_astype_int (a : ndarray) : ndarray :=
  {| dtype := "int64"; shape := shape a;
     elems := List.map (fun q => inject_Z (round q)) (elems a) |}.

(** [a.T] for a matrix (shape data are matrices; any other array is
    returned as it is). *)
Definition transpose (a : ndarray) : ndarray :=
  match shape a with
  | [n; k] =>
      {| dtype := dtype a; shape := [k; n];
         elems := j ← seq 0 k; i ← seq 0 n;
                  option_list (elems a !! (i * k + j)%nat) |}
  | _ => a
  end.

End Np.

(** The layers of the [napari] viewer that the selector reads and replaces,
    each with its data when the layer is there. *)
Record viewer : Type := {
  layer_Points : option ndarray;
  layer_Area_Selection : option (list ndarray);
  layer_Area_Deselection : option (list ndarray);
  layer_ROI_box : option ndarray;
}.

Record gui : Type := {
  video : pyIDI;
  layers : viewer;
}.

Definition on_video (f : pyIDI -> pyIDI) : M gui unit :=
  modify (fun g => {| video := f (video g); layers := layers g |}).
Definition on_layers (f : viewer -> viewer) : M gui unit :=
  modify (fun g => {| video := video g; layers := f (layers g) |}).

(** [viewer.layers[name]]. *)
Definition layer {A} (name : string) (field : viewer -> option A) : M gui A :=
  fun g =>
    match field (layers g) with
    | Some a => (Ok a, g)
    | None => (Raise (KeyError name), g)
    end.

Definition video_attr {A} (name : string) (field : pyIDI -> option A) : M gui A :=
  fun g =>
    match field (video g) with
    | Some a => (Ok a, g)
    | None => (Raise (AttributeError name), g)
    end.

Definition with_layer_Points (x : option ndarray) (v : viewer) : viewer :=
  {| layer_Points := x; layer_Area_Selection := layer_Area_Selection v;
     layer_Area_Deselection := layer_Area_Deselection v;
     layer_ROI_box := layer_ROI_box v |}.
Definition with_layer_ROI_box (x : option ndarray) (v : viewer) : viewer :=
  {| layer_Points := layer_Points v; layer_Area_Selection := layer_Area_Selection v;
     layer_Area_Deselection := layer_Area_Deselection v;
     layer_ROI_box := x |}.

(** [len(v)] for the values that can sit in [self.points]. *)
Definition py_len (v : pyvalue) : res nat :=
  match v with
  | VArray a => array_len a
  | VList l => Ok (length l)
  | VDict d => Ok (length d)
  | VStr s => Ok (String.length s)
  | _ => Raise (TypeError ("object of type '" +:+ type_name v +:+ "' has no len()"))
  end.

Section Selector.
Variable ext : collaborators.

(** The four corners around the point in row [i] of a matrix of points. *)
Definition rectangle (half : Q) (a : ndarray) (k i : nat) : res (list Q) :=
  match elems a !! (i * k)%nat, elems a !! (i * k + 1)%nat with
  | Some r, Some c =>
      if (2 <=? k)%nat
      then Ok [r - half; c - half; r - half; c + half;
               r + half; c + half; r + half; c - half]%Q
      else Raise (IndexError "index 1 is out of bounds for axis 1")
  | _, _ => Raise (IndexError "index 1 is out of bounds for axis 1")
  end.

Fixpoint rectangles (half : Q) (a : ndarray) (k : nat) (rows : list nat)
    : res (list Q) :=
  match rows with
  | [] => Ok []
  | i :: rows' =>
      r ← rectangle half a k i;
      rs ← rectangles half a k rows';
      Ok (r ++ rs)%list
  end.

(** The local function [view_ROI]. *)
Definition view_ROI : M gui unit :=
  p ← video_attr "method" method;
  match (match subset_size p with Some s => Some s | None => roi_size p end) with
  | Some size =>
      let half_subset := (size / 2)%Q in
      pts ← video_attr "points" points;
      n ← lift (py_len pts);
      cells ← lift (match pts with
                    | VArray a =>
                        match shape a with
                        | [_; k] => rectangles half_subset a k (seq 0 n)
                        | [_] => match n with
                                 | O => Ok []
                                 | _ => Raise (IndexError "too many indices for array")
                                 end
                        | _ => match n with
                               | O => Ok []
                               | _ => Raise (ValueError "could not broadcast input array")
                               end
                        end
                    | _ => match n with
                           | O => Ok []
                           | _ => Raise (TypeError "list indices must be integers or slices, not tuple")
                           end
                    end);
      on_layers (with_layer_ROI_box
                   (Some {| dtype := "float64"; shape := [n; 4; 2]%nat; elems := cells |}))
  | None => mret tt
  end.

(** The first block of [widget_grid]: the points picked one by one when no
    area is drawn, else the grid that [get_roi_grid] lays over the area. *)
Definition grid_points (Horizontal_ROI_size Vertical_ROI_size Overlap_pixels : Z)
    : M gui ndarray :=
  selection ← layer "Area Selection" layer_Area_Selection;
  match selection with
  | [] =>
      markers ← layer "Points" layer_Points;
      mret (Np.round_astype_int markers)
  | shape0 :: _ =>
      let border := Np.transpose shape0 in
      deselection ← layer "Area Deselection" layer_Area_Deselection;
      let deselect_border :=
        match deselection with
        | [] => None
        | d0 :: _ => Some (Np.transpose d0)
        end in
      lift (get_roi_grid ext border (Vertical_ROI_size, Horizontal_ROI_size)
              Overlap_pixels deselect_border)
  end.

(** The callback [widget_grid] behind the button: the sizes, the overlap
    and the check box are the values of the form. *)
Definition widget_grid (Horizontal_ROI_size Vertical_ROI_size Overlap_pixels : Z)
    (Show_ROI_box : bool) : M gui unit :=
  grid ← grid_points Horizontal_ROI_size Vertical_ROI_size Overlap_pixels;
  on_video (with_points (Some (VArray grid)));;
  on_layers (with_layer_ROI_box None);;
  (if Show_ROI_box then view_ROI else mret tt);;
  layer "Points" layer_Points;;
  on_layers (with_layer_Points (Some grid));;
  pts ← video_attr "points" points;
  n ← lift (py_len pts);
  if (n =? 0)%nat then on_video (with_points None) else mret tt.

End Selector.

(** ** [pyIDI.__call__] *)

Definition with_layer_Area_Selection (x : option (list ndarray)) (v : viewer)
    : viewer :=
  {| layer_Points := layer_Points v; layer_Area_Selection := x;
     layer_Area_Deselection := layer_Area_Deselection v;
     layer_ROI_box := layer_ROI_box v |}.
Definition with_layer_Area_Deselection (x : option (list ndarray)) (v : viewer)
    : viewer :=
  {| layer_Points := layer_Points v; layer_Area_Selection := layer_Area_Selection v;
     layer_Area_Deselection := x;
     layer_ROI_box := layer_ROI_box v |}.

(** A viewer with no layer of those the selector uses. *)
Definition blank_viewer : viewer :=
  {| layer_Points := None; layer_Area_Selection := None;
     layer_Area_Deselection := None; layer_ROI_box := None |}.

Section Call.
(** What [viewer.add_points] makes of the points it is handed (the data of
    the layer, or the exception it raises), and the number of coordinates
    of a marker in a layer made without data. *)
Variable as_layer_data : pyvalue -> res ndarray.
Variable marker_ndim : nat.

(** [pyIDI.__call__], up to the point where the viewer is handed to the
    user: with points the layers of points and of boxes are shown; without,
    the three layers of the selector are made and [widget_grid] is docked.
    The image layer and the visibility of a layer are not modelled. *)
Definition __call__ : M gui unit :=
  g ← get;
  match points (video g) with
  | Some pts =>
      data ← lift (as_layer_data pts);
      on_layers (with_layer_Points (Some data));;
      view_ROI;;
      layer "Points" layer_Points;;
      mret tt
  | None =>
      on_layers (with_layer_Points
                   (Some {| dtype := "float64"; shape := [0%nat; marker_ndim];
                            elems := [] |}));;
      on_layers (with_layer_Area_Deselection (Some []));;
      on_layers (with_layer_Area_Selection (Some []))
  end.

(** The viewer that [video()] opens on the session [s]. *)
Definition opening (s : pyIDI) : res unit * gui :=
  __call__ {| video := s; layers := blank_viewer |}.

End Call.

Global Arguments view_ROI : simpl never.

(** ** Directories ready for writing *)

(** A name without separator, and a directory path that does not end with
    one. *)
Definition plain_name (o : platform) (b : string) : Prop :=
  b <> EmptyString /\ Str.any (OsPath.is_sep o) b = false.

Definition plain_dir (o : platform) (a : string) : Prop :=
  exists l, Str.last a = Some l /\ OsPath.is_sep o l = false.

(** [root0] can take files: it is the working directory, or a directory
    that is there. *)
Definition directory_ready (w : world) (root0 : string) : Prop :=
  root0 = EmptyString \/ (plain_dir (os w) root0 /\ fs w !! root0 = Some Dir).

(** The world after the three files of a run have been written below
    [root0]. *)
Definition saved (root0 : string) (d pts : pyvalue) (text : string)
    (w : world) : world :=
  with_fs
    (<[OsPath.join (os w) root0 "settings.txt" := File (Text text)]>
       (<[OsPath.join (os w) root0 "points.pkl" := File (Pickled pts)]>
          (<[OsPath.join (os w) root0 "results.pkl" := File (Pickled d)]>
             (fs w))))
    (with_calls (calls w ++ [CreateSettingsDict]) w).

(** ** The names of the versioner *)

(** The part of the file name of the video before its first dot, and the
    analysis root that [create_analysis_directory] derives from it. *)
Definition stem_of (o : platform) (p : string) : string :=
  default EmptyString (head (Str.split "." (OsPath.split o p).2)).

Definition analysis_root (o : platform) (s : pyIDI) (p : string) : string :=
  OsPath.join o (root s) (stem_of o p +:+ "_pyidi_analysis").

(** ** The paths that are modelled *)

(** [glob.has_magic]: the text holds one of the characters that [glob]
    reads as part of a pattern. *)
Definition has_magic (s : string) : bool :=
  Str.any (fun a => Ascii.eqb a "*" || Ascii.eqb a "?" || Ascii.eqb a "[") s.

(** A path in which [ntpath] finds neither a drive nor a UNC prefix: it
    holds no colon and does not start with two separators. Where the
    separator is the slash every path is so. *)
Definition drive_less (o : platform) (s : string) : bool :=
  match o with
  | Posix => true
  | Windows =>
      negb (Str.any (fun a => Ascii.eqb a ":") s)
      && match s with
         | String a (String b _) =>
             negb (OsPath.is_sep Windows a && OsPath.is_sep Windows b)
         | _ => true
         end
  end.

(** The video path [p] of a session and the root of the session are paths
    on which [OsPath] does what [os.path] does, and the analysis root is
    one that [glob] takes literally, as [Glob.glob_runs] does. *)
Definition literal_paths (st : state) (p : string) : Prop :=
  drive_less (os (env st)) p = true /\
  drive_less (os (env st)) (root (self st)) = true /\
  has_magic (analysis_root (os (env st)) (self st) p) = false.


(** The number that a string of decimal digits (most significant first)
    stands for, on top of [acc]. *)
Fixpoint uint_value (acc : Z) (d : Decimal.uint) : Z :=
  match d with
  | Decimal.Nil => acc
  | Decimal.D0 d => uint_value (10 * acc + 0) d
  | Decimal.D1 d => uint_value (10 * acc + 1) d
  | Decimal.D2 d => uint_value (10 * acc + 2) d
  | Decimal.D3 d => uint_value (10 * acc + 3) d
  | Decimal.D4 d => uint_value (10 * acc + 4) d
  | Decimal.D5 d => uint_value (10 * acc + 5) d
  | Decimal.D6 d => uint_value (10 * acc + 6) d
  | Decimal.D7 d => uint_value (10 * acc + 7) d
  | Decimal.D8 d => uint_value (10 * acc + 8) d
  | Decimal.D9 d => uint_value (10 * acc + 9) d
  end.

(** A character that is a decimal digit; a character that is not the
    backslash. *)
Definition is_digit (a : ascii) : bool := bool_decide (is_Some (PyInt.digit a)).
Definition not_backslash (a : ascii) : bool := negb (Ascii.eqb a Str.backslash).

(** ** The failure classes of the specification

    The specification names failures by role; the code raises the built-in
    [ValueError] with a message that tells the role. *)

(** An operation that needs a bound plug-in was called before binding. *)
Definition MethodNotSetError : exn :=
  ValueError "IDI method has not yet been set. Please call `set_method()` first.".

(** The method handed to [set_method] is not one the session accepts. *)
Definition InvalidMethodError (e : exn) : Prop :=
  e = not_an_IDIMethod \/ e = not_a_method.

Global Instance InvalidMethodError_dec e : Decision (InvalidMethodError e).
Proof. unfold InvalidMethodError. apply _. Defined.

(** The name under which a binding request is recorded: the registry name,
    or the marker of a plug-in supplied as an object. *)
Definition marker (m : method_arg) : string :=
  match m with
  | MName name => name
  | MObject _ => "external_method"
  end.

(** The constructor of the requested method is reached and raises [e]. *)
Definition constructor_raises (s : pyIDI) (kw : kwargs) (m : method_arg)
    (e : exn) : Prop :=
  match m with
  | MName name =>
      exists entry, dict_get (available_methods s) name = Some entry /\
                    obj_call (IDIMethod entry) kw = Raise e
  | MObject o =>
      obj_callable o && obj_has_calculate_displacements o = true /\
      obj_call o kw = Raise e
  end.

(** Whether [set_method] gets as far as calling the constructor. *)
Definition reaches_constructor (s : pyIDI) (m : method_arg) : bool :=
  match m with
  | MName name => bool_decide (is_Some (dict_get (available_methods s) name))
  | MObject o => obj_callable o && obj_has_calculate_displacements o
  end.

(** The ways a call of [set_method] fails before a plug-in is bound. *)
Inductive binding_failure (s : pyIDI) (kw : kwargs) : method_arg -> Prop :=
| unregistered_name name :
    dict_get (available_methods s) name = None ->
    binding_failure s kw (MName name)
| lacks_capability o :
    obj_callable o && obj_has_calculate_displacements o = false ->
    binding_failure s kw (MObject o)
| constructor_raising m e :
    constructor_raises s kw m e ->
    binding_failure s kw m.

(** The state right after the computation step of [get_displacements]: the
    plug-in as [calculate_displacements] left it, its displacements taken
    over by the session, and the call logged. Nothing on disk has changed. *)
Definition computed (p' : plugin) (d : pyvalue) (st : state) : state :=
  {| self := with_displacements (Some d) (with_method (Some p') (self st));
     env := with_calls (calls (env st) ++ [CalculateDisplacements]) (env st) |}.



(** The element types of [numpy] that hold numbers. *)
Definition numeric_dtype (dt : string) : bool :=
  bool_decide (dt ∈ ["bool"; "int8"; "int16"; "int32"; "int64"; "uint8"; "uint16";
                     "uint32"; "uint64"; "float16"; "float32"; "float64";
                     "complex64"; "complex128"]).

(** A numeric array with three axes [(frames, height, width)]. *)
Definition numeric_3d_array (v : pyvalue) : Prop :=
  exists a, v = VArray a /\ numeric_dtype (dtype a) = true /\
            length (shape a) = 3%nat.

Definition wrong_type : exn :=
  ValueError
    "`cih_file` must be either a cih filename or a 3D array (N_time, height, width)".

(** The session with [method_name] overwritten and nothing else touched. *)
Definition renamed (name : string) (st : state) : state :=
  {| self := with_method_name (Some name) (self st); env := env st |}.

(** The session once [p] is bound under [name]. *)
Definition bound (name : string) (p : plugin) (st : state) : state :=
  {| self := with_method (Some p) (with_method_name (Some name) (self st));
     env := env st |}.

(** ** [pyIDI.__repr__] *)

Section Repr.
(** [str(v)] for the values that are not plain scalars, and for the size of
    a subset or region as the plug-in holds it. *)
Variable str_other : pyvalue -> string.
Variable str_size : Q -> string.
(** What the sum of [__repr__] carries on with when the file name is an
    array of strings or of objects, which [numpy] adds element by element. *)
Variable str_plus_array : string -> ndarray -> res string.

(** The line break [',\n'] between two entries. *)
Definition comma_newline : string := "," +:+ String (ascii_of_nat 10) EmptyString.

(** [str(v)]. *)
Definition py_str (v : pyvalue) : string :=
  match v with
  | VNone => "None"
  | VBool true => "True"
  | VBool false => "False"
  | VInt n => PyInt.str n
  | VFloat r => r
  | VStr s => s
  | _ => str_other v
  end.

(** ['File name: ' + v]: only a [str] can be appended to a [str]. An array
    takes the sum over ([ndarray.__radd__]): [numpy] has no addition of a
    [str] and numbers. *)
Definition concat_str (prefix : string) (v : pyvalue) : res string :=
  match v with
  | VStr s => Ok (prefix +:+ s)
  | VArray a =>
      if numeric_dtype (dtype a)
      then Raise (TypeError
             "ufunc 'add' did not contain a loop with signature matching types")
      else str_plus_array prefix a
  | _ => Raise (TypeError ("can only concatenate str (not " +:+ type_name v +:+ ") to str"))
  end.

(** [pyIDI.__repr__]. The sum is evaluated from the left, so the file name
    is appended before the metadata is looked up; [self.method] is read
    only when [method_name] is there. *)
Definition __repr__ (s : pyIDI) : res string :=
  head ← concat_str "File name: " (cih_file s);
  rate ← getitem (info s) "Record Rate(fps)";
  let rep := head +:+ comma_newline
             +:+ "Image width: " +:+ py_str (image_width s) +:+ comma_newline
             +:+ "Image height: " +:+ py_str (image_height s) +:+ comma_newline
             +:+ "Total frame: " +:+ py_str (N s) +:+ comma_newline
             +:+ "Record Rate(fps): " +:+ py_str rate in
  rep1 ← match method_name s with
         | Some name =>
             p ← match method s with
                 | Some p => Ok p
                 | None => Raise (AttributeError "method")
                 end;
             Ok (rep +:+ comma_newline +:+ "Method: " +:+ name
                 +:+ match subset_size p, roi_size p with
                     | Some q, _ => comma_newline +:+ "Subset size: " +:+ str_size q
                     | None, Some q => comma_newline +:+ "ROI size: " +:+ str_size q
                     | None, None => EmptyString
                     end)
         | None => Ok rep
         end;
  match points s with
  | Some pts =>
      n ← py_len pts;
      Ok (rep1 +:+ comma_newline +:+ "Number of points: "
          +:+ PyInt.str (Z.of_nat n))
  | None => Ok rep1
  end.

End Repr.

(** ** What a session is a session of *)

(** [s'] is a session on the same video as [s]: the attributes that the
    constructor derives from its argument are the same. *)
Definition same_video (s s' : pyIDI) : Prop :=
  cih_file s' = cih_file s /\ root s' = root s /\
  available_methods s' = available_methods s /\ mraw s' = mraw s /\
  info s' = info s /\ N s' = N s /\
  image_width s' = image_width s /\ image_height s' = image_height s.

(** A statement that leaves the session on the same video however it ends;
    [session] tells where the session sits in the state. *)
Definition keeps_video {S A} (session : S -> pyIDI) (m : M S A) : Prop :=
  forall st r st', m st = (r, st') -> same_video (session st) (session st').

(** ** A small installation to run the code on *)

Module Example.

Definition zeros : pyvalue :=
  VArray {| dtype := "float64"; shape := [2; 50; 2]%nat; elems := [] |}.

Definition two_points : ndarray :=
  {| dtype := "int64"; shape := [2; 2]%nat;
     elems := [inject_Z 10; inject_Z 10; inject_Z 20; inject_Z 20] |}.

(** An instance as the constructor leaves it; [rank] is its
    [process_number]. *)
Definition instance (cls : string) (rank : option Z) : plugin :=
  {| plugin_class := cls; has_calculate_displacements := true;
     plugin_displacements := None; process_number := rank;
     has_clear_temp_files := true; has_create_settings_dict := true;
     has_show_points := false; subset_size := None;
     roi_size := Some (inject_Z 5) |}.

(** A class of [methods]: like [IDIMethod.__init__], which hands its
    keyword arguments to [configure], it raises [TypeError] on a keyword
    it does not know. The keyword [rank] sets the process number. *)
Definition method_class (cls : string) : pyobject :=
  {| obj_name := cls; obj_doc := Some cls; obj_callable := true;
     obj_has_calculate_displacements := true;
     obj_call := fun kw =>
       match kw with
       | [] => Ok (instance cls (Some 0))
       | [("rank", VInt r)] => Ok (instance cls (Some r))
       | [("rank", VNone)] => Ok (instance cls None)
       | _ => Raise (TypeError "configure() got an unexpected keyword argument")
       end |}.

(** An object that is not a method: not callable, no capability. *)
Definition not_a_plugin : pyobject :=
  {| obj_name := "object"; obj_doc := None; obj_callable := false;
     obj_has_calculate_displacements := false;
     obj_call := fun _ => Raise (TypeError "'object' object is not callable") |}.

(** A callable with the capability whose call raises. *)
Definition broken_plugin : pyobject :=
  {| obj_name := "Broken"; obj_doc := None; obj_callable := true;
     obj_has_calculate_displacements := true;
     obj_call := fun _ => Raise (PluginError "RuntimeError") |}.

Definition metadata : pyvalue :=
  VDict [ ("Total Frame", VInt 50); ("Image Width", VInt 64);
          ("Image Height", VInt 64) ].

Definition installation : collaborators :=
  {| load_video := fun _ => Ok (VObject "memmap", metadata);
     SimplifiedOpticalFlow := method_class "SimplifiedOpticalFlow";
     LucasKanade := method_class "LucasKanade";
     LucasKanadeSc := method_class "LucasKanadeSc";
     LucasKanadeSc2 := method_class "LucasKanadeSc2";
     calculate_displacements := fun _ p _ =>
       Ok {| plugin_class := plugin_class p;
             has_calculate_displacements := has_calculate_displacements p;
             plugin_displacements := Some zeros;
             process_number := process_number p;
             has_clear_temp_files := has_clear_temp_files p;
             has_create_settings_dict := has_create_settings_dict p;
             has_show_points := has_show_points p;
             subset_size := subset_size p; roi_size := roi_size p |};
     create_settings_dict := fun p => Ok (VDict [("roi_size", VInt 5)]);
     clear_temp_files := fun p => Ok p;
     get_roi_grid := fun _ _ _ _ =>
       Ok {| dtype := "int64"; shape := [0; 2]%nat; elems := [] |};
     get_points := fun _ _ _ => Ok (VArray two_points) |}.

(** A keyword argument that no method of the installation knows. *)
Definition bogus : kwargs := [("bogus", VInt 1)].

(** A single grey image, and a stack of colour images: arrays with two
    and with four axes. *)
Definition image : pyvalue :=
  VArray {| dtype := "uint8"; shape := [64; 64]%nat; elems := [] |}.
Definition colour_video : pyvalue :=
  VArray {| dtype := "uint8"; shape := [50; 64; 64; 3]%nat; elems := [] |}.
Definition grey_video : ndarray :=
  {| dtype := "uint8"; shape := [50; 48; 64]%nat; elems := [] |}.

(** A machine with nothing on disk yet. *)
Definition machine (o : platform) : world :=
  {| os := o; fs := ∅; clock := "2020 01 01    00:00:00";
     stdout := []; calls := [] |}.

(** The session that [pyIDI('video.cih')] builds there. *)
Definition fresh (o : platform) : state :=
  {| self :=
       match init installation (machine o) (VStr "video.cih") with
       | Ok s => s
       | Raise _ =>
           {| cih_file := VNone; root := EmptyString; available_methods := [];
              mraw := VNone; info := VNone; N := VNone; image_width := VNone;
              image_height := VNone; method_name := None; method := None;
              points := None; displacements := None; root_analysis := None;
              root_this_analysis := None |}
       end;
     env := machine o |}.

(** The state after a sequence of statements, whatever each returned. *)
Definition after {A} (m : M state A) (st : state) : state := (m st).2.

(** The session with [lk] bound (keywords [kw]) and two points set. *)
Definition ready (o : platform) (kw : kwargs) : state :=
  after (set_method (MName "lk") kw;;
         set_points installation (Some two_points) None [])
    (fresh o).

(** The viewer as [pyIDI.__call__] opens it on a session without points:
    an empty layer of markers and no shape drawn. *)
Definition no_markers : ndarray :=
  {| dtype := "float64"; shape := [0; 2]%nat; elems := [] |}.
Definition opened (o : platform) : gui :=
  {| video := self (fresh o);
     layers := {| layer_Points := Some no_markers;
                  layer_Area_Selection := Some [];
                  layer_Area_Deselection := Some [];
                  layer_ROI_box := None |} |}.

(** The session of [ready] after a second binding, by the name [sof] with a
    keyword the class does not know, has failed. *)
Definition rebind_failed (o : platform) : state :=
  after (set_method (MName "sof") bogus) (ready o []).

(** The fresh session on a machine where the analysis root of the video
    already holds the run directories [runs]. *)
Definition archive (o : platform) (runs : list string) : state :=
  {| self := self (fresh o);
     env := with_fs
              (list_to_map
                 (("video_pyidi_analysis", Dir)
                  :: List.map (fun r => (OsPath.join o "video_pyidi_analysis" r, Dir))
                       runs))
              (machine o) |}.

(** Three calls of the versioner in a row. *)
Definition three_runs : M state unit :=
  create_analysis_directory;; create_analysis_directory;;
  create_analysis_directory.

(** The [lk] instance before and after [calculate_displacements]. *)
Definition lk (rank : option Z) : plugin := instance "LucasKanade" rank.
Definition lk_done (rank : option Z) : plugin :=
  {| plugin_class := "LucasKanade"; has_calculate_displacements := true;
     plugin_displacements := Some zeros; process_number := rank;
     has_clear_temp_files := true; has_create_settings_dict := true;
     has_show_points := false; subset_size := None;
     roi_size := Some (inject_Z 5) |}.

(** An [lk] instance without a [clear_temp_files] attribute, before and
    after the computation. *)
Definition no_cleanup : plugin :=
  {| plugin_class := "LucasKanade"; has_calculate_displacements := true;
     plugin_displacements := None; process_number := Some 0;
     has_clear_temp_files := false; has_create_settings_dict := true;
     has_show_points := false; subset_size := None;
     roi_size := Some (inject_Z 5) |}.
Definition no_cleanup_done : plugin :=
  {| plugin_class := "LucasKanade"; has_calculate_displacements := true;
     plugin_displacements := Some zeros; process_number := Some 0;
     has_clear_temp_files := false; has_create_settings_dict := true;
     has_show_points := false; subset_size := None;
     roi_size := Some (inject_Z 5) |}.

(** Metadata with the record rate, and an installation whose videos carry
    it. *)
Definition metadata_fps : pyvalue :=
  VDict [ ("Total Frame", VInt 50); ("Image Width", VInt 64);
          ("Image Height", VInt 64); ("Record Rate(fps)", VInt 5000) ].

Definition camera : collaborators :=
  {| load_video := fun _ => Ok (VObject "memmap", metadata_fps);
     SimplifiedOpticalFlow := SimplifiedOpticalFlow installation;
     LucasKanade := LucasKanade installation;
     LucasKanadeSc := LucasKanadeSc installation;
     LucasKanadeSc2 := LucasKanadeSc2 installation;
     calculate_displacements := calculate_displacements installation;
     create_settings_dict := create_settings_dict installation;
     clear_temp_files := clear_temp_files installation;
     get_roi_grid := get_roi_grid installation;
     get_points := get_points installation |}.

(** The session that [pyIDI(path)] builds with that installation. *)
Definition recorded (o : platform) (path : string) : state :=
  {| self := match init camera (machine o) (VStr path) with
             | Ok s => s
             | Raise _ => self (fresh o)
             end;
     env := machine o |}.

(** The session that [pyIDI(array)] builds from a stack of grey images,
    with [lk] bound and two points set. *)
Definition in_memory (o : platform) : state :=
  after (set_method (MName "lk") [];;
         set_points installation (Some two_points) None [])
    {| self := match init installation (machine o) (VArray grey_video) with
               | Ok s => s
               | Raise _ => self (fresh o)
               end;
       env := machine o |}.

(** An installation whose computation fails. *)
Definition failing : collaborators :=
  {| load_video := load_video installation;
     SimplifiedOpticalFlow := SimplifiedOpticalFlow installation;
     LucasKanade := LucasKanade installation;
     LucasKanadeSc := LucasKanadeSc installation;
     LucasKanadeSc2 := LucasKanadeSc2 installation;
     calculate_displacements := fun _ _ _ => Raise (PluginError "MemoryError");
     create_settings_dict := create_settings_dict installation;
     clear_temp_files := clear_temp_files installation;
     get_roi_grid := get_roi_grid installation;
     get_points := get_points installation |}.



End Example.

(** * Properties *)

(** Unfolds the monad so that a statement becomes a function of the state. *)
Ltac run :=
  unfold mbind, mret, M_bind, M_ret, res_bind, res_ret, raise, lift, get,
    modify, on_self, on_env, on_video, on_layers, getattr, video_attr, layer,
    syscall, log_call in *;
  simpl in *.

(** ** Inversion of statements that returned *)

Lemma bind_Ok {S A B} (m : M S A) (f : A -> M S B) st b st' :
  (m ≫= f) st = (Ok b, st') ->
  exists a st1, m st = (Ok a, st1) /\ f a st1 = (Ok b, st').
Proof.
  unfold mbind, M_bind. destruct (m st) as [[a|e] st1]; [eauto|done].
Qed.

Lemma get_Ok {S} (st : S) a st' : get st = (Ok a, st') -> a = st /\ st' = st.
Proof. unfold get. naive_solver. Qed.

Lemma modify_Ok {S} (f : S -> S) st u st' :
  modify f st = (Ok u, st') -> st' = f st.
Proof. unfold modify. naive_solver. Qed.

Lemma on_env_Ok f st u st' :
  on_env f st = (Ok u, st') -> st' = {| self := self st; env := f (env st) |}.
Proof. unfold on_env. by intros ->%modify_Ok. Qed.

Lemma on_self_Ok f st u st' :
  on_self f st = (Ok u, st') -> st' = {| self := f (self st); env := env st |}.
Proof. unfold on_self. by intros ->%modify_Ok. Qed.

Lemma getattr_Ok {A} name (field : pyIDI -> option A) st a st' :
  getattr name field st = (Ok a, st') -> field (self st) = Some a /\ st' = st.
Proof. unfold getattr. destruct (field (self st)); naive_solver. Qed.

Lemma syscall_Ok f st u st' :
  syscall f st = (Ok u, st') ->
  exists w, f (env st) = Ok w /\ st' = {| self := self st; env := w |}.
Proof. unfold syscall. destruct (f (env st)); naive_solver. Qed.

Lemma lift_Ok {S A} (r : res A) (st : S) a st' :
  lift r st = (Ok a, st') -> r = Ok a /\ st' = st.
Proof. unfold lift. naive_solver. Qed.

Lemma guard_Ok {S} (b : bool) e (st : S) u st' :
  (if b then mret tt else raise e) st = (Ok u, st') -> b = true /\ st' = st.
Proof. destruct b; unfold mret, M_ret, raise; naive_solver. Qed.

Lemma open_w_Ok p w w' :
  open_w p w = Ok w' -> w' = with_fs (<[p := File (Text EmptyString)]> (fs w)) w.
Proof.
  unfold open_w.
  destruct (fs w !! p) as [[|c]|]; [done|..];
    (destruct (parent_check w p); simpl; [|done]); by intros [= <-].
Qed.

Lemma os_mkdir_Ok p w w' :
  os_mkdir p w = Ok w' -> fs w !! p = None /\ w' = with_fs (<[p := Dir]> (fs w)) w.
Proof.
  unfold os_mkdir. destruct p; [done|].
  destruct (fs w !! _); [done|].
  destruct (parent_check w _); simpl; [|done]. by intros [= <-].
Qed.

(** Splits the first statement off a sequence that returned, and reads what
    that statement did. *)
Ltac inv_bind H :=
  let a := fresh "a" in
  let st := fresh "st" in
  let H1 := fresh H in
  apply bind_Ok in H as (a & st & H1 & H);
  first
    [ apply get_Ok in H1 as [-> ->]
    | apply getattr_Ok in H1 as [H1 ->]
    | apply syscall_Ok in H1 as (? & H1 & ->);
      first [ apply open_w_Ok in H1 as ->
            | apply os_mkdir_Ok in H1 as [H1 ->]
            | idtac ]
    | apply on_env_Ok in H1 as ->
    | apply on_self_Ok in H1 as ->
    | apply guard_Ok in H1 as [H1 ->]
    | apply lift_Ok in H1 as [H1 ->]
    | idtac ];
  cbn [self env] in *.

(** ** Binding a method *)

Section SetMethod.
Implicit Types (st : state) (kw : kwargs).

Lemma set_method_unregistered st kw name :
  dict_get (available_methods (self st)) name = None ->
  set_method (MName name) kw st = (Raise not_a_method, st).
Proof. intros H. unfold set_method. run. by rewrite H. Qed.

Lemma set_method_lacks_capability st kw o :
  obj_callable o && obj_has_calculate_displacements o = false ->
  set_method (MObject o) kw st = (Raise not_a_method, st).
Proof. intros H. unfold set_method. run. by rewrite H. Qed.

Lemma set_method_registered_raises st kw name entry e :
  dict_get (available_methods (self st)) name = Some entry ->
  obj_call (IDIMethod entry) kw = Raise e ->
  set_method (MName name) kw st = (Raise e, renamed name st).
Proof. intros H1 H2. unfold set_method. run. by rewrite H1, H2. Qed.

Lemma set_method_supplied_raises st kw o e :
  obj_callable o && obj_has_calculate_displacements o = true ->
  obj_call o kw = Raise e ->
  set_method (MObject o) kw st
  = (Raise not_an_IDIMethod, renamed "external_method" st).
Proof. intros H1 H2. unfold set_method. run. by rewrite H1, H2. Qed.

(** A call that returns has bound the constructed instance under the
    marker of the request. *)
Lemma set_method_returns st kw m st' :
  set_method m kw st = (Ok tt, st') ->
  exists p, st' = bound (marker m) p st /\
    match m with
    | MName name =>
        exists entry, dict_get (available_methods (self st)) name = Some entry /\
                      obj_call (IDIMethod entry) kw = Ok p
    | MObject o => obj_call o kw = Ok p
    end.
Proof.
  unfold set_method. run. destruct m as [name|o]; simpl.
  - destruct (dict_get _ name) as [entry|] eqn:Hd; simpl; [|done].
    destruct (obj_call (IDIMethod entry) kw) as [p|e] eqn:Hc; simpl; [|done].
    destruct (has_calculate_displacements p); simpl; [|done].
    intros [= <-]. exists p. split; [done|]. by exists entry.
  - destruct (obj_callable o && obj_has_calculate_displacements o); simpl; [|done].
    destruct (obj_call o kw) as [p|e] eqn:Hc; simpl; [|done].
    destruct (has_calculate_displacements p); simpl; [|done].
    intros [= <-]. by exists p.
Qed.

(** When the constructor raises, the call raises with only [method_name]
    overwritten: the exception of the constructor for a registered name,
    the [ValueError] of the handler for a supplied object. *)
Lemma set_method_constructor_raises st kw m e :
  constructor_raises (self st) kw m e ->
  set_method m kw st
  = (Raise (match m with MName _ => e | MObject _ => not_an_IDIMethod end),
     renamed (marker m) st).
Proof.
  destruct m as [name|o]; simpl.
  - intros (entry & Hentry & Hcall).
    by apply set_method_registered_raises with entry.
  - intros [Hcap Hcall]. by apply set_method_supplied_raises with e.
Qed.

End SetMethod.

(** C5. Binding an object that has no [calculate_displacements] attribute,
    and binding by a name that is not a key of the registry, both fail with
    an [InvalidMethodError]; the session is left as it was. *)
Theorem set_method_rejects_invalid (st : state) (kw : kwargs) :
  (forall o, obj_has_calculate_displacements o = false ->
     exists e, set_method (MObject o) kw st = (Raise e, st) /\ InvalidMethodError e) /\
  (forall name, dict_get (available_methods (self st)) name = None ->
     exists e, set_method (MName name) kw st = (Raise e, st) /\ InvalidMethodError e).
Proof.
  split.
  - intros o Ho. exists not_a_method. split; [|by right].
    apply set_method_lacks_capability. rewrite Ho. apply andb_false_r.
  - intros name Hname. exists not_a_method. split; [|by right].
    by apply set_method_unregistered.
Qed.

Lemma set_method_rejects_invalid_witness :
  (exists e, set_method (MObject Example.not_a_plugin) [] (Example.fresh Posix)
             = (Raise e, Example.fresh Posix) /\ InvalidMethodError e) /\
  (exists e, set_method (MName "optical_flow") [] (Example.fresh Posix)
             = (Raise e, Example.fresh Posix) /\ InvalidMethodError e).
Proof.
  destruct (set_method_rejects_invalid (Example.fresh Posix) []) as [Hobj Hname].
  split; [apply Hobj | apply Hname]; reflexivity.
Defined.

(** C3, as stated, fails for a binding by registered name: the constructor
    of the registered class [lk] raises [TypeError] on an unknown keyword,
    and that exception, not an [InvalidMethodError], reaches the caller. *)
Lemma registered_constructor_failure_not_wrapped :
  let e := TypeError "configure() got an unexpected keyword argument" in
  constructor_raises (self (Example.fresh Windows)) Example.bogus (MName "lk") e /\
  set_method (MName "lk") Example.bogus (Example.fresh Windows)
  = (Raise e, renamed "lk" (Example.fresh Windows)) /\
  ~ InvalidMethodError e.
Proof.
  split; [|split].
  - eexists. split; reflexivity.
  - reflexivity.
  - intros [H|H]; discriminate H.
Qed.

(** C3, amended. When the constructor raises [e]: for a plug-in supplied as
    an object the failure is caught and raised again as an
    [InvalidMethodError]; for a registered name [e] itself reaches the
    caller. Either way the [method] attribute is not assigned. *)
Theorem set_method_constructor_failure (st : state) (kw : kwargs)
    (m : method_arg) (e : exn) :
  constructor_raises (self st) kw m e ->
  exists e', set_method m kw st = (Raise e', renamed (marker m) st) /\
    method (self (renamed (marker m) st)) = method (self st) /\
    match m with
    | MObject _ => InvalidMethodError e'
    | MName _ => e' = e
    end.
Proof.
  intros He. rewrite (set_method_constructor_raises st kw m e He).
  eexists. split; [reflexivity|]. split; [reflexivity|].
  destruct m; [reflexivity | by left].
Qed.

Lemma set_method_constructor_failure_witness :
  exists e', set_method (MObject Example.broken_plugin) [] (Example.fresh Posix)
             = (Raise e', renamed "external_method" (Example.fresh Posix)) /\
    method (self (renamed "external_method" (Example.fresh Posix)))
    = method (self (Example.fresh Posix)) /\
    InvalidMethodError e'.
Proof.
  apply (set_method_constructor_failure (Example.fresh Posix) []
           (MObject Example.broken_plugin) (PluginError "RuntimeError")).
  split; reflexivity.
Defined.

(** C10. A call of [set_method] that fails because the name is not
    registered, because the object lacks the capability, or because the
    constructor raises, does not assign [method]: a plug-in bound before
    stays bound. [method_name] has been overwritten exactly when the call
    got as far as the constructor; nothing else changes. *)
Theorem set_method_failure_keeps_method (st : state) (kw : kwargs)
    (m : method_arg) :
  binding_failure (self st) kw m ->
  exists e st',
    set_method m kw st = (Raise e, st') /\
    method (self st') = method (self st) /\
    st' = (if reaches_constructor (self st) m then renamed (marker m) st else st).
Proof.
  intros [name Hname|o Ho|m' e He].
  - exists not_a_method, st. rewrite (set_method_unregistered _ _ _ Hname).
    simpl. rewrite Hname. by rewrite bool_decide_eq_false_2 by (by intros [??]).
  - exists not_a_method, st. rewrite (set_method_lacks_capability _ _ _ Ho).
    simpl. by rewrite Ho.
  - eexists _, (renamed (marker m') st).
    rewrite (set_method_constructor_raises st kw m' e He).
    repeat split.
    destruct m' as [name|o]; simpl in *.
    + destruct He as (entry & -> & _). by rewrite bool_decide_eq_true_2 by eauto.
    + destruct He as [-> _]. done.
Qed.

Lemma set_method_failure_keeps_method_witness :
  let st := Example.after (set_method (MName "lk") []) (Example.fresh Posix) in
  exists e st',
    set_method (MName "sof") Example.bogus st = (Raise e, st') /\
    method (self st') = method (self st) /\
    st' = (if reaches_constructor (self st) (MName "sof")
           then renamed "sof" st else st).
Proof.
  apply (set_method_failure_keeps_method _ Example.bogus (MName "sof")).
  apply (constructor_raising _ _ _
           (TypeError "configure() got an unexpected keyword argument")).
  eexists. split; reflexivity.
Defined.

(** ** Persisting a run *)

Section Save.
Variable ext : collaborators.

(** A call of [save] that returns has written three files below [root0]
    and nothing else, and has asked the plug-in for its settings once. *)
Lemma save_returns root0 st st' :
  save ext root0 st = (Ok tt, st') ->
  exists d pts p settings name text,
    displacements (self st) = Some d /\
    points (self st) = Some pts /\
    method (self st) = Some p /\
    create_settings_dict ext p = Ok settings /\
    method_name (self st) = Some name /\
    Json.dump (settings_record (self st) (env st) settings name) = (text, None) /\
    self st' = self st /\
    env st' =
      with_fs
        (<[OsPath.join (os (env st)) root0 "settings.txt" := File (Text text)]>
           (<[OsPath.join (os (env st)) root0 "points.pkl" := File (Pickled pts)]>
              (<[OsPath.join (os (env st)) root0 "results.pkl" := File (Pickled d)]>
                 (fs (env st)))))
        (with_calls (calls (env st) ++ [CreateSettingsDict]) (env st)).
Proof.
  unfold save, log_call. intros H.
  do 13 inv_bind H.
  match type of H with
  | context [Json.dump ?r] => destruct (Json.dump r) as [text [e|]] eqn:Hdump
  end; inv_bind H; [done|].
  injection H as <-.
  do 6 eexists. repeat split; try eassumption.
  unfold write, with_fs, with_calls. cbn [os fs clock stdout calls].
  by rewrite !insert_insert_eq.
Qed.

End Save.

(** ** Versioned run directories *)

Section Versioner.
Implicit Types (st : state).




End Versioner.

(** ** Paths built by [os.path.join] *)

Section Paths.
Variable o : platform.

Lemma append_nil_r (a : string) : a +:+ EmptyString = a.
Proof.
  induction a as [|c a IH]; [done|].
  change (String c (a +:+ EmptyString) = String c a). by rewrite IH.
Qed.

Lemma append_assoc (a b c : string) : (a +:+ b) +:+ c = a +:+ (b +:+ c).
Proof.
  induction a as [|x a IH]; [done|].
  change (String x ((a +:+ b) +:+ c) = String x (a +:+ (b +:+ c))).
  by rewrite IH.
Qed.

Lemma append_ne_self (a y : string) : y <> EmptyString -> a +:+ y <> a.
Proof.
  intros Hy Heq. apply Hy. apply (inj (String.app a)).
  by rewrite append_nil_r.
Qed.

Lemma last_None (a : string) : Str.last a = None -> a = EmptyString.
Proof.
  induction a as [|c a IH]; [done|]. simpl.
  destruct a; [done|]. intros H. by specialize (IH H).
Qed.

(** Joining a relative, non-empty name onto [a] extends [a]. *)
Lemma join_relative (a : string) (c : ascii) (b : string) :
  OsPath.is_sep o c = false ->
  OsPath.join o a (String c b) = a +:+ (OsPath.glue o a +:+ String c b).
Proof. intros Hc. unfold OsPath.join. by rewrite Hc. Qed.

Lemma join_extends (a : string) (c : ascii) (b : string) :
  OsPath.is_sep o c = false ->
  exists y, y <> EmptyString /\ OsPath.join o a (String c b) = a +:+ y.
Proof.
  intros Hc. rewrite (join_relative _ _ _ Hc). eexists. split; [|done].
  unfold OsPath.glue. destruct (Str.last a) as [l|]; [|done].
  by destruct (OsPath.is_sep o l).
Qed.

Lemma join_inj (a : string) (c1 c2 : ascii) (b1 b2 : string) :
  OsPath.is_sep o c1 = false -> OsPath.is_sep o c2 = false ->
  OsPath.join o a (String c1 b1) = OsPath.join o a (String c2 b2) ->
  String c1 b1 = String c2 b2.
Proof.
  intros H1 H2. rewrite (join_relative _ _ _ H1), (join_relative _ _ _ H2).
  intros H. by do 2 apply (inj (String.app _)) in H.
Qed.

Lemma join_ne_self (a : string) (c : ascii) (b : string) :
  OsPath.is_sep o c = false -> OsPath.join o a (String c b) <> a.
Proof.
  intros Hc. destruct (join_extends a c b Hc) as (y & Hy & ->).
  by apply append_ne_self.
Qed.


End Paths.

(** ** Computing displacements *)

Section GetDisplacements.
Variable ext : collaborators.
Implicit Types (st : state) (kw : kwargs) (p : plugin) (d : pyvalue).

(** Up to the rank test, the call runs the plug-in and takes over its
    displacements. *)
Lemma get_displacements_computes autosave kw st p p' d :
  method (self st) = Some p ->
  has_calculate_displacements p = true ->
  calculate_displacements ext (self st) p kw = Ok p' ->
  plugin_displacements p' = Some d ->
  get_displacements ext autosave kw st
  = (autosave_and_clear ext autosave p';;
     getattr "displacements" displacements) (computed p' d st).
Proof.
  intros Hm Hc Hcalc Hd. unfold get_displacements.
  unfold mbind at 1, M_bind at 1, get. rewrite Hm, Hc.
  unfold log_call, on_env, on_self, modify, lift, mret, M_ret.
  unfold mbind at 1 2 3 4 5 6, M_bind at 1 2 3 4 5 6.
  cbn [self env]. rewrite Hcalc, Hd. reflexivity.
Qed.

(** A plug-in that is not the coordinator leaves the block at once. *)
Lemma autosave_and_clear_skips autosave p' st :
  (forall rank, process_number p' = Some rank -> rank <> 0) ->
  autosave_and_clear ext autosave p' st = (Ok tt, st).
Proof.
  intros H. unfold autosave_and_clear.
  destruct (process_number p') as [rank|]; [|done].
  specialize (H rank eq_refl). by apply Z.eqb_neq in H as ->.
Qed.

Lemma get_displacements_skips autosave kw st p p' d :
  method (self st) = Some p ->
  has_calculate_displacements p = true ->
  calculate_displacements ext (self st) p kw = Ok p' ->
  plugin_displacements p' = Some d ->
  (forall rank, process_number p' = Some rank -> rank <> 0) ->
  get_displacements ext autosave kw st = (Ok d, computed p' d st).
Proof.
  intros Hm Hc Hcalc Hd Hrank.
  rewrite (get_displacements_computes _ _ _ _ _ _ Hm Hc Hcalc Hd).
  unfold mbind, M_bind. by rewrite autosave_and_clear_skips.
Qed.

End GetDisplacements.

(** C4. With no plug-in bound, [get_displacements] fails with
    [MethodNotSetError], whatever [autosave] is, and changes nothing. *)
Theorem get_displacements_method_not_set (ext : collaborators)
    (autosave : bool) (kw : kwargs) (st : state) :
  method (self st) = None ->
  get_displacements ext autosave kw st = (Raise MethodNotSetError, st).
Proof.
  intros H. unfold get_displacements, mbind, M_bind, get. by rewrite H.
Qed.

Lemma get_displacements_method_not_set_witness :
  get_displacements Example.installation true [] (Example.fresh Posix)
  = (Raise MethodNotSetError, Example.fresh Posix).
Proof.
  apply (get_displacements_method_not_set Example.installation true []
           (Example.fresh Posix)).
  reflexivity.
Defined.

(** C9. When the bound plug-in has no [process_number] attribute once the
    computation is done, [get_displacements(autosave=True)] sets the
    [displacements] attribute and returns it, and does nothing else: the
    file system is as before (no run directory, no artifact) and the only
    call logged is the computation, so [clear_temp_files] is not called. *)
Theorem get_displacements_without_rank (ext : collaborators) (kw : kwargs)
    (st : state) (p p' : plugin) (d : pyvalue) :
  method (self st) = Some p ->
  has_calculate_displacements p = true ->
  calculate_displacements ext (self st) p kw = Ok p' ->
  plugin_displacements p' = Some d ->
  process_number p' = None ->
  exists st',
    get_displacements ext true kw st = (Ok d, st') /\
    displacements (self st') = Some d /\
    fs (env st') = fs (env st) /\
    calls (env st') = (calls (env st) ++ [CalculateDisplacements])%list /\
    root_analysis (self st') = root_analysis (self st) /\
    root_this_analysis (self st') = root_this_analysis (self st) /\
    st' = computed p' d st.
Proof.
  intros Hm Hc Hcalc Hd Hrank. exists (computed p' d st).
  split; [|done].
  apply (get_displacements_skips ext true kw st p p' d Hm Hc Hcalc Hd).
  intros rank H. congruence.
Qed.

(** ** One persisted run *)

Section Persisted.
Variable o : platform.



End Persisted.

(** ** The coordinator *)

Section Coordinator.
Variable ext : collaborators.



End Coordinator.

Lemma get_displacements_without_rank_witness :
  let st := Example.ready Posix [("rank", VNone)] in
  exists st',
    get_displacements Example.installation true [] st = (Ok Example.zeros, st') /\
    displacements (self st') = Some Example.zeros /\
    fs (env st') = fs (env st) /\
    calls (env st') = (calls (env st) ++ [CalculateDisplacements])%list /\
    root_analysis (self st') = root_analysis (self st) /\
    root_this_analysis (self st') = root_this_analysis (self st) /\
    st' = computed (Example.lk_done None) Example.zeros st.
Proof.
  apply (get_displacements_without_rank Example.installation []
           (Example.ready Posix [("rank", VNone)])
           (Example.lk None) (Example.lk_done None) Example.zeros);
    reflexivity.
Defined.

(** ** Construction *)

(** C7, as stated, fails for arrays that are not three-dimensional: an image
    with two axes is neither a path nor a 3-D array, and the constructor
    fails on it with [IndexError], which is not a [ValueError]; a stack with
    four axes is accepted. *)
Lemma init_array_of_other_rank :
  (~ (exists p, Example.image = VStr p) /\ ~ numeric_3d_array Example.image /\
   init Example.installation (Example.machine Posix) Example.image
   = Raise (IndexError "tuple index out of range") /\
   is_ValueError (IndexError "tuple index out of range") = false) /\
  (~ (exists p, Example.colour_video = VStr p) /\
   ~ numeric_3d_array Example.colour_video /\
   exists s, init Example.installation (Example.machine Posix) Example.colour_video
             = Ok s).
Proof.
  split; split_and!.
  - by intros [p H].
  - intros (a & [= <-] & _ & H). discriminate H.
  - reflexivity.
  - reflexivity.
  - by intros [p H].
  - intros (a & [= <-] & _ & H). discriminate H.
  - eexists. reflexivity.
Qed.

(** C7, amended. An argument whose type is neither [str] nor
    [numpy.ndarray] makes the constructor fail with [ValueError]; an array
    with three axes gives a session with [N], [image_height] and
    [image_width] the three entries of its shape, in that order. *)
Theorem init_by_type (ext : collaborators) (w : world) :
  (forall v, (forall p, v <> VStr p) -> (forall a, v <> VArray a) ->
     init ext w v = Raise wrong_type /\ is_ValueError wrong_type = true) /\
  (forall a frames height width,
     shape a = [frames; height; width] ->
     exists s, init ext w (VArray a) = Ok s /\
       N s = VInt (Z.of_nat frames) /\
       image_height s = VInt (Z.of_nat height) /\
       image_width s = VInt (Z.of_nat width) /\
       mraw s = VArray a /\ cih_file s = VArray a).
Proof.
  split.
  - intros v Hstr Harr. split; [|done].
    destruct v; try done; [by destruct (Hstr s) | by destruct (Harr a)].
  - intros a frames height width Hshape. unfold init, shape_at.
    rewrite Hshape. simpl. eexists. by split_and!.
Qed.

Lemma init_by_type_witness :
  (init Example.installation (Example.machine Posix) (VInt 7) = Raise wrong_type /\
   is_ValueError wrong_type = true) /\
  (exists s, init Example.installation (Example.machine Posix)
               (VArray Example.grey_video) = Ok s /\
     N s = VInt 50 /\ image_height s = VInt 48 /\ image_width s = VInt 64 /\
     mraw s = VArray Example.grey_video /\
     cih_file s = VArray Example.grey_video).
Proof.
  destruct (init_by_type Example.installation (Example.machine Posix))
    as [Hother Harray].
  split.
  - apply Hother; discriminate.
  - apply (Harray Example.grey_video 50%nat 48%nat 64%nat). reflexivity.
Defined.

(** ** Selecting points in the viewer *)

Section SelectorFacts.
Variable ext : collaborators.
Implicit Types (g : gui) (a : ndarray).

Lemma layer_Ok {A} name (field : viewer -> option A) g x g' :
  layer name field g = (Ok x, g') -> field (layers g) = Some x /\ g' = g.
Proof. unfold layer. destruct (field (layers g)); naive_solver. Qed.

Lemma video_attr_Ok {A} name (field : pyIDI -> option A) g x g' :
  video_attr name field g = (Ok x, g') -> field (video g) = Some x /\ g' = g.
Proof. unfold video_attr. destruct (field (video g)); naive_solver. Qed.

(** Picking the grid reads the layers and changes nothing. *)
Lemma grid_points_returns h v k g a g' :
  grid_points ext h v k g = (Ok a, g') -> g' = g.
Proof.
  unfold grid_points. intros H.
  apply bind_Ok in H as (sel & g1 & [_ ->]%layer_Ok & H).
  destruct sel as [|shape0 sel].
  - apply bind_Ok in H as (m & g1 & [_ ->]%layer_Ok & H). by injection H.
  - apply bind_Ok in H as (m & g1 & [_ ->]%layer_Ok & H).
    by apply lift_Ok in H as [_ ->].
Qed.

(** [view_ROI] only adds the layer of boxes. *)
Lemma view_ROI_returns g g' :
  view_ROI g = (Ok tt, g') ->
  video g' = video g /\ layer_Points (layers g') = layer_Points (layers g).
Proof.
  unfold view_ROI. intros H.
  apply bind_Ok in H as (p & g1 & [_ ->]%video_attr_Ok & H).
  destruct (match subset_size p with Some s => Some s | None => roi_size p end).
  - apply bind_Ok in H as (pts & g1 & [_ ->]%video_attr_Ok & H).
    apply bind_Ok in H as (n & g1 & [_ ->]%lift_Ok & H).
    apply bind_Ok in H as (cells & g1 & [_ ->]%lift_Ok & H).
    unfold on_layers in H. by apply modify_Ok in H as ->.
  - by injection H as <-.
Qed.

(** On an empty set of points with a method bound, [view_ROI] returns. *)
Lemma view_ROI_empty g a p :
  points (video g) = Some (VArray a) -> array_len a = Ok 0%nat ->
  method (video g) = Some p ->
  exists g', view_ROI g = (Ok tt, g').
Proof.
  intros Hpts Hlen Hm. unfold view_ROI, video_attr, mbind, M_bind.
  rewrite Hm. destruct (match subset_size p with Some s => Some s | None => roi_size p end);
    [|by eexists].
  rewrite Hpts. unfold lift, py_len. rewrite Hlen.
  unfold array_len in Hlen. destruct (shape a) as [|n0 [|k [|]]] eqn:Hshape;
    [done|..]; injection Hlen as ->; by eexists.
Qed.

End SelectorFacts.

(** C8. When the point set that a selection results in is empty, a run of
    [widget_grid] that completes leaves the session without a [points]
    attribute (the empty set is what the viewer then shows); and the run
    does complete when the box display is off or a method is bound. *)
Theorem widget_grid_empty_selection (ext : collaborators)
    (h v k : Z) (show : bool) (g : gui) (a : ndarray) :
  grid_points ext h v k g = (Ok a, g) ->
  array_len a = Ok 0%nat ->
  (forall g', widget_grid ext h v k show g = (Ok tt, g') ->
     points (video g') = None /\ layer_Points (layers g') = Some a) /\
  (show = false \/ is_Some (method (video g)) ->
   is_Some (layer_Points (layers g)) ->
   exists g', widget_grid ext h v k show g = (Ok tt, g')).
Proof.
  intros Hgrid Hlen. split.
  - intros g' H. unfold widget_grid in H.
    apply bind_Ok in H as (a' & g1 & Hgrid' & H).
    rewrite Hgrid in Hgrid'. injection Hgrid' as <- <-.
    apply bind_Ok in H as ([] & g1 & ->%modify_Ok & H).
    apply bind_Ok in H as ([] & g2 & ->%modify_Ok & H).
    apply bind_Ok in H as ([] & g3 & Hview & H).
    assert (video g3 = with_points (Some (VArray a)) (video g)) as Hvideo.
    { destruct show.
      - by apply view_ROI_returns in Hview as [-> _].
      - by injection Hview as <-. }
    apply bind_Ok in H as (old & g4 & [_ ->]%layer_Ok & H).
    apply bind_Ok in H as ([] & g4 & ->%modify_Ok & H).
    apply bind_Ok in H as (pts & g5 & [Hpts ->]%video_attr_Ok & H).
    apply bind_Ok in H as (n & g5 & [Hn ->]%lift_Ok & H).
    cbn [video layers] in *. rewrite Hvideo in Hpts. injection Hpts as <-.
    cbn [py_len] in Hn. rewrite Hlen in Hn. injection Hn as <-.
    change (0 =? 0)%nat with true in H. cbv iota in H.
    unfold on_video in H. by apply modify_Ok in H as ->.
  - intros Hshow [old Hold]. unfold widget_grid, mbind, M_bind.
    rewrite Hgrid. unfold on_video, on_layers, modify at 1 2. cbn [video layers].
    assert (exists g3,
      (if show then view_ROI else mret ())
        {| video := with_points (Some (VArray a)) (video g);
           layers := with_layer_ROI_box None (layers g) |} = (Ok tt, g3) /\
      video g3 = with_points (Some (VArray a)) (video g) /\
      layer_Points (layers g3) = Some old) as (g3 & -> & Hvideo & Hlayer).
    { destruct show.
      - destruct Hshow as [|[p Hp]]; [done|].
        destruct (view_ROI_empty
                    {| video := with_points (Some (VArray a)) (video g);
                       layers := with_layer_ROI_box None (layers g) |} a p)
          as [g3 Hg3]; [done..|].
        exists g3. split; [done|].
        by apply view_ROI_returns in Hg3 as [-> ->].
      - by eexists. }
    unfold layer, video_attr, modify, lift. rewrite Hlayer. cbn [video layers].
    rewrite Hvideo. cbn [points with_points py_len]. rewrite Hlen.
    by eexists.
Qed.

Lemma widget_grid_empty_selection_witness :
  exists g',
    widget_grid Example.installation 5 5 0 false (Example.opened Posix)
    = (Ok tt, g') /\
    points (video g') = None /\
    layer_Points (layers g') = Some (Np.round_astype_int Example.no_markers).
Proof.
  destruct (widget_grid_empty_selection Example.installation 5 5 0 false
              (Example.opened Posix) (Np.round_astype_int Example.no_markers)
              eq_refl eq_refl) as [Hdone Hruns].
  destruct Hruns as [g' Hg']; [by left | by eexists |].
  exists g'. split; [exact Hg'|]. by apply Hdone.
Defined.

(** ** The settings document *)

Lemma sort_keys_settings_record s w settings name :
  Json.sort_keys (settings_record s w settings name)
  = VDict [ ("cih_file", Json.sort_keys (cih_file s));
            ("createdate", VStr (clock w));
            ("info", Json.sort_keys (info s));
            ("method", VStr name);
            ("settings", Json.sort_keys settings) ].
Proof.
  unfold settings_record. cbn [Json.sort_keys List.map fst snd].
  generalize (Json.sort_keys (cih_file s)), (Json.sort_keys (info s)),
    (Json.sort_keys settings), (VStr (clock w)), (VStr name).
  intros. vm_compute. reflexivity.
Qed.

(** The text written for the settings record: an object whose five members
    come in the order of their keys, one a line, indented by two spaces. *)
Lemma dump_settings_record s w settings name text :
  Json.dump (settings_record s w settings name) = (text, None) ->
  exists t_cih t_info t_settings,
    Json.iterencode 1 (Json.sort_keys (cih_file s)) = (t_cih, None) /\
    Json.iterencode 1 (Json.sort_keys (info s)) = (t_info, None) /\
    Json.iterencode 1 (Json.sort_keys settings) = (t_settings, None) /\
    text = Json.object_text
             [ Json.member "cih_file" t_cih;
               Json.member "createdate" (Json.quote (clock w));
               Json.member "info" t_info;
               Json.member "method" (Json.quote name);
               Json.member "settings" t_settings ].
Proof.
  unfold Json.dump. rewrite sort_keys_settings_record.
  cbn [Json.iterencode].
  destruct (Json.iterencode 1 (Json.sort_keys (cih_file s))) as [t1 [e|]]; [done|].
  destruct (Json.iterencode 1 (Json.sort_keys (info s))) as [t2 [e|]]; [done|].
  destruct (Json.iterencode 1 (Json.sort_keys settings)) as [t3 [e|]]; [done|].
  intros [= <-]. exists t1, t2, t3. split_and!; try done.
  unfold Json.object_text, Json.member. cbn [Str.join].
  rewrite !append_assoc. reflexivity.
Qed.

(** C6, as stated, fails on the method key after a binding that failed:
    with [lk] bound, a second [set_method('sof', bogus=1)] raises in the
    constructor and leaves [lk] bound; the run then persisted records the
    method [sof], which is not the bound method's registry name. *)
Lemma settings_name_a_failed_binding :
  let st := Example.rebind_failed Posix in
  let out := get_displacements Example.installation true [] st in
  set_method (MName "lk") [] (Example.fresh Posix)
  = (Ok tt, bound "lk" (Example.lk (Some 0)) (Example.fresh Posix)) /\
  method (self st) = Some (Example.lk (Some 0)) /\
  out.1 = Ok Example.zeros /\
  fs (env out.2) !! "video_pyidi_analysis/analysis_001/settings.txt"
  = Some (File (Text (Json.object_text
       [ Json.member "cih_file" (Json.quote "video.cih");
         Json.member "createdate" (Json.quote "2020 01 01    00:00:00");
         Json.member "info"
           (Json.iterencode 1 (Json.sort_keys Example.metadata)).1;
         Json.member "method" (Json.quote "sof");
         Json.member "settings"
           (Json.iterencode 1 (VDict [("roi_size", VInt 5)])).1 ]))).
Proof. vm_compute. by split_and!. Qed.

(** C6, amended. A call of [save] that returns has written exactly three
    files below its directory, at three different paths: [results.pkl] with
    the pickled displacements, [points.pkl] with the pickled points, and
    [settings.txt] with a JSON object of the five members [cih_file],
    [createdate], [info], [method], [settings], in that (sorted) order, one a
    line, indented by two spaces. The [method] member is the [method_name]
    attribute of the session, which a binding that completes sets to the
    registry name of the request, or to the marker [external_method] for a
    plug-in supplied as an object. *)
Theorem save_artifacts (ext : collaborators) (root0 : string) (st st' : state) :
  save ext root0 st = (Ok tt, st') ->
  (exists d pts p settings name t_cih t_info t_settings,
     let R := OsPath.join (os (env st)) root0 "results.pkl" in
     let P := OsPath.join (os (env st)) root0 "points.pkl" in
     let S := OsPath.join (os (env st)) root0 "settings.txt" in
     displacements (self st) = Some d /\
     points (self st) = Some pts /\
     method (self st) = Some p /\
     create_settings_dict ext p = Ok settings /\
     method_name (self st) = Some name /\
     Json.iterencode 1 (Json.sort_keys (cih_file (self st))) = (t_cih, None) /\
     Json.iterencode 1 (Json.sort_keys (info (self st))) = (t_info, None) /\
     Json.iterencode 1 (Json.sort_keys settings) = (t_settings, None) /\
     fs (env st')
     = <[S := File (Text (Json.object_text
              [ Json.member "cih_file" t_cih;
                Json.member "createdate" (Json.quote (clock (env st)));
                Json.member "info" t_info;
                Json.member "method" (Json.quote name);
                Json.member "settings" t_settings ]))]>
         (<[P := File (Pickled pts)]>
            (<[R := File (Pickled d)]> (fs (env st)))) /\
     R <> P /\ R <> S /\ P <> S /\
     self st' = self st) /\
  (forall m kw st0 st1,
     set_method m kw st0 = (Ok tt, st1) ->
     method_name (self st1) = Some (marker m) /\ is_Some (method (self st1))).
Proof.
  intros H. split.
  - apply save_returns in H
      as (d & pts & p & settings & name & text
          & Hd & Hpts & Hp & Hsettings & Hname & Hdump & Hself & Henv).
    apply dump_settings_record in Hdump
      as (t_cih & t_info & t_settings & Hcih & Hinfo & Hset & ->).
    exists d, pts, p, settings, name, t_cih, t_info, t_settings.
    rewrite Henv. cbn [fs with_fs].
    assert (forall c, (c = "r" \/ c = "p" \/ c = "s")%char ->
                      OsPath.is_sep (os (env st)) c = false) as Hsep.
    { intros c [->|[->| ->]]; by destruct (os (env st)). }
    split_and!; try done.
    all: intros Heq; apply join_inj in Heq;
      [discriminate Heq | apply Hsep; tauto | apply Hsep; tauto].
  - intros m kw st0 st1 Hbind.
    apply set_method_returns in Hbind as (p & -> & _). by split; [|eexists].
Qed.

Lemma save_artifacts_witness :
  let st := Example.after (get_displacements Example.installation false [])
              (Example.ready Windows []) in
  exists st', save Example.installation EmptyString st = (Ok tt, st') /\
    fs (env st') !! "results.pkl" = Some (File (Pickled Example.zeros)) /\
    fs (env st') !! "points.pkl"
    = Some (File (Pickled (VArray Example.two_points))) /\
    fs (env st') !! "settings.txt"
    = Some (File (Text (Json.object_text
         [ Json.member "cih_file" (Json.quote "video.cih");
           Json.member "createdate" (Json.quote "2020 01 01    00:00:00");
           Json.member "info"
             (Json.iterencode 1 (Json.sort_keys Example.metadata)).1;
           Json.member "method" (Json.quote "lk");
           Json.member "settings"
             (Json.iterencode 1 (VDict [("roi_size", VInt 5)])).1 ]))) /\
    method_name (self (Example.ready Windows [])) = Some (marker (MName "lk")).
Proof.
  intros st.
  assert (exists st', save Example.installation EmptyString st = (Ok tt, st'))
    as [st' Hsave] by (eexists; vm_compute; reflexivity).
  exists st'. split; [exact Hsave|].
  destruct (save_artifacts Example.installation EmptyString st st' Hsave)
    as [(d & pts & p & settings & name & t_cih & t_info & t_settings
         & Hd & Hpts & Hp & Hsettings & Hname & Hcih & Hinfo & Hset
         & Hfs & HRP & HRS & HPS & _) Hbind].
  injection Hd as <-. injection Hpts as <-. injection Hname as <-.
  injection Hp as <-. injection Hsettings as <-.
  injection Hcih as <-. injection Hinfo as <-. injection Hset as <-.
  rewrite Hfs. split_and!.
  - by rewrite !lookup_insert_ne, lookup_insert_eq by done.
  - by rewrite lookup_insert_ne, lookup_insert_eq by done.
  - by rewrite lookup_insert_eq.
  - reflexivity.
Defined.

(** ** The versioner on a machine *)

(** Where the separator is the backslash, three calls on an analysis root
    without runs make [analysis_001], [analysis_002], [analysis_003], in
    that order. *)
Lemma three_runs_windows :
  let out := Example.three_runs (Example.fresh Windows) in
  out.1 = Ok tt /\
  stdout (env out.2)
  = [ "video_pyidi_analysis\analysis_001\ analysis_001";
      "video_pyidi_analysis\analysis_002\ analysis_002" ] /\
  sorted (Glob.glob_runs (env out.2) "video_pyidi_analysis")
  = [ "video_pyidi_analysis\analysis_001\";
      "video_pyidi_analysis\analysis_002\";
      "video_pyidi_analysis\analysis_003\" ] /\
  root_this_analysis (self out.2) = Some "video_pyidi_analysis\analysis_003".
Proof. vm_compute. by split_and!. Qed.

(** C2 on the code. With the slash as separator, the second of three calls
    on an analysis root without runs raises [IndexError]: the path of the
    last run is split at backslashes, of which it has none; only
    [analysis_001] is made. With the backslash as separator, three calls on
    a root holding [analysis_998] make [analysis_999] and [analysis_1000]
    and then raise [FileExistsError]: the last run in the order of the
    strings is [analysis_999], not the run with the greatest number, so
    [analysis_1000] is to be made a second time. *)
Theorem create_analysis_directory_breaks :
  (let out := Example.three_runs (Example.fresh Posix) in
   out.1 = Raise (IndexError "list index out of range") /\
   Glob.glob_runs (env out.2) "video_pyidi_analysis"
   = [ "video_pyidi_analysis/analysis_001/" ]) /\
  (let out := Example.three_runs (Example.archive Windows ["analysis_998"]) in
   out.1 = Raise (FileExistsError "video_pyidi_analysis\analysis_1000") /\
   sorted (Glob.glob_runs (env out.2) "video_pyidi_analysis")
   = [ "video_pyidi_analysis\analysis_1000\";
       "video_pyidi_analysis\analysis_998\";
       "video_pyidi_analysis\analysis_999\" ]).
Proof. vm_compute. by split_and!. Qed.

(** * Further properties of the class *)

(** ** Forward evaluation *)

Lemma bind_returns {S A B} (m : M S A) (f : A -> M S B) st a st1 :
  m st = (Ok a, st1) -> (m ≫= f) st = f a st1.
Proof. intros H. unfold mbind, M_bind. by rewrite H. Qed.

Lemma bind_raises {S A B} (m : M S A) (f : A -> M S B) st e st1 :
  m st = (Raise e, st1) -> (m ≫= f) st = (Raise e, st1).
Proof. intros H. unfold mbind, M_bind. by rewrite H. Qed.

(** ** More on [get_displacements] *)

Section GetDisplacementsMore.
Variable ext : collaborators.
Implicit Types (st : state) (kw : kwargs) (p : plugin) (d : pyvalue).

(** The state once the coordinator has cleared its temporary files. *)
Lemma autosave_and_clear_no_autosave p' p'' st :
  process_number p' = Some 0 ->
  has_clear_temp_files p' = true ->
  clear_temp_files ext p' = Ok p'' ->
  autosave_and_clear ext false p' st
  = (Ok tt, {| self := with_method (Some p'') (self st);
               env := with_calls (calls (env st) ++ [ClearTempFiles]) (env st) |}).
Proof.
  intros Hrank Hhas Hclear. unfold autosave_and_clear, log_call.
  rewrite Hrank, Hhas. change (0 =? 0) with true. cbv iota.
  unfold mbind, M_bind, mret, M_ret, on_env, on_self, modify, lift.
  by rewrite Hclear.
Qed.

Lemma autosave_and_clear_no_cleanup p' st :
  process_number p' = Some 0 ->
  has_clear_temp_files p' = false ->
  autosave_and_clear ext false p' st
  = (Raise (AttributeError "clear_temp_files"), st).
Proof.
  intros Hrank Hhas. unfold autosave_and_clear. rewrite Hrank, Hhas.
  change (0 =? 0) with true. cbv iota. reflexivity.
Qed.

End GetDisplacementsMore.

(** X1. With [autosave=False] the coordinator (rank 0) still asks the
    plug-in to clear its temporary files: the call returns the
    displacements, nothing on disk changes, and the calls made are the
    computation and then [clear_temp_files]. *)
Theorem get_displacements_no_autosave_clears (ext : collaborators)
    (kw : kwargs) (st : state) (p p' p'' : plugin) (d : pyvalue) :
  method (self st) = Some p ->
  has_calculate_displacements p = true ->
  calculate_displacements ext (self st) p kw = Ok p' ->
  plugin_displacements p' = Some d ->
  process_number p' = Some 0 ->
  has_clear_temp_files p' = true ->
  clear_temp_files ext p' = Ok p'' ->
  exists st',
    get_displacements ext false kw st = (Ok d, st') /\
    fs (env st') = fs (env st) /\
    calls (env st')
    = (calls (env st) ++ [CalculateDisplacements; ClearTempFiles])%list /\
    method (self st') = Some p'' /\
    displacements (self st') = Some d /\
    root_this_analysis (self st') = root_this_analysis (self st).
Proof.
  intros Hm Hc Hcalc Hd Hrank Hhas Hclear.
  rewrite (get_displacements_computes ext false kw st p p' d Hm Hc Hcalc Hd).
  erewrite bind_returns
    by (by apply autosave_and_clear_no_autosave with (p'' := p'')).
  eexists. split; [reflexivity|]. cbn. by rewrite <- app_assoc.
Qed.

Lemma get_displacements_no_autosave_clears_witness :
  exists st',
    get_displacements Example.installation false [] (Example.ready Posix [])
    = (Ok Example.zeros, st') /\
    fs (env st') = fs (env (Example.ready Posix [])) /\
    calls (env st')
    = (calls (env (Example.ready Posix []))
       ++ [CalculateDisplacements; ClearTempFiles])%list /\
    method (self st') = Some (Example.lk_done (Some 0)) /\
    displacements (self st') = Some Example.zeros /\
    root_this_analysis (self st')
    = root_this_analysis (self (Example.ready Posix [])).
Proof.
  apply (get_displacements_no_autosave_clears Example.installation []
           (Example.ready Posix []) (Example.lk (Some 0))
           (Example.lk_done (Some 0)) (Example.lk_done (Some 0)) Example.zeros);
    reflexivity.
Defined.

(** X2. A coordinator whose plug-in has no [clear_temp_files] attribute
    never returns from [get_displacements]: without autosave it raises
    [AttributeError] right after the computation, and with autosave it
    raises that same error once the versioner and the store have done
    their work, so the run is on disk although the call failed. *)
Theorem get_displacements_cleanup_missing (ext : collaborators)
    (kw : kwargs) (st : state) (p p' : plugin) (d : pyvalue) :
  method (self st) = Some p ->
  has_calculate_displacements p = true ->
  calculate_displacements ext (self st) p kw = Ok p' ->
  plugin_displacements p' = Some d ->
  process_number p' = Some 0 ->
  has_clear_temp_files p' = false ->
  get_displacements ext false kw st
  = (Raise (AttributeError "clear_temp_files"), computed p' d st) /\
  (forall autosave v st', get_displacements ext autosave kw st <> (Ok v, st')) /\
  (forall st1 run st2,
     create_analysis_directory (computed p' d st) = (Ok tt, st1) ->
     root_this_analysis (self st1) = Some run ->
     save ext run st1 = (Ok tt, st2) ->
     get_displacements ext true kw st
     = (Raise (AttributeError "clear_temp_files"), st2)).
Proof.
  intros Hm Hc Hcalc Hd Hrank Hhas. split_and!.
  - rewrite (get_displacements_computes ext false kw st p p' d Hm Hc Hcalc Hd).
    apply bind_raises. by apply autosave_and_clear_no_cleanup.
  - intros autosave v st'.
    rewrite (get_displacements_computes ext autosave kw st p p' d Hm Hc Hcalc Hd).
    intros H. apply bind_Ok in H as ([] & st3 & Hblock & _).
    unfold autosave_and_clear in Hblock. rewrite Hrank, Hhas in Hblock.
    change (0 =? 0) with true in Hblock. cbv iota in Hblock.
    apply bind_Ok in Hblock as ([] & st4 & _ & Hblock).
    by apply bind_Ok in Hblock as ([] & st5 & Hguard & _).
  - intros st1 run st2 Hdir Hrun Hsave.
    rewrite (get_displacements_computes ext true kw st p p' d Hm Hc Hcalc Hd).
    apply bind_raises. unfold autosave_and_clear. rewrite Hrank, Hhas.
    change (0 =? 0) with true. cbv iota.
    erewrite bind_returns; [reflexivity|].
    erewrite bind_returns by exact Hdir.
    erewrite bind_returns by (unfold getattr; by rewrite Hrun).
    exact Hsave.
Qed.

Lemma get_displacements_cleanup_missing_witness :
  let st := bound "lk" Example.no_cleanup (Example.ready Posix []) in
  let st1 := (create_analysis_directory
                (computed Example.no_cleanup_done Example.zeros st)).2 in
  let st2 := (save Example.installation "video_pyidi_analysis/analysis_001" st1).2 in
  get_displacements Example.installation false [] st
  = (Raise (AttributeError "clear_temp_files"),
     computed Example.no_cleanup_done Example.zeros st) /\
  (forall autosave v st',
     get_displacements Example.installation autosave [] st <> (Ok v, st')) /\
  get_displacements Example.installation true [] st
  = (Raise (AttributeError "clear_temp_files"), st2) /\
  fs (env st2) !! "video_pyidi_analysis/analysis_001/results.pkl"
  = Some (File (Pickled Example.zeros)).
Proof.
  intros st st1 st2.
  destruct (get_displacements_cleanup_missing Example.installation [] st
              Example.no_cleanup Example.no_cleanup_done Example.zeros
              eq_refl eq_refl eq_refl eq_refl eq_refl eq_refl)
    as (Hoff & Hnever & Hon).
  split; [exact Hoff|]. split; [exact Hnever|]. split.
  - apply (Hon st1 "video_pyidi_analysis/analysis_001" st2).
    + vm_compute. reflexivity.
    + vm_compute. reflexivity.
    + vm_compute. reflexivity.
  - vm_compute. reflexivity.
Defined.

(** X3. When the computation of the plug-in raises, [get_displacements]
    raises the same exception; the session keeps its attributes (the
    displacements of an earlier run included) and nothing on disk changes. *)
Theorem get_displacements_computation_raises (ext : collaborators)
    (autosave : bool) (kw : kwargs) (st : state) (p : plugin) (e : exn) :
  method (self st) = Some p ->
  has_calculate_displacements p = true ->
  calculate_displacements ext (self st) p kw = Raise e ->
  exists st',
    get_displacements ext autosave kw st = (Raise e, st') /\
    self st' = self st /\ fs (env st') = fs (env st) /\
    calls (env st') = (calls (env st) ++ [CalculateDisplacements])%list.
Proof.
  intros Hm Hc Hcalc. unfold get_displacements.
  unfold mbind at 1, M_bind at 1, get. rewrite Hm, Hc.
  unfold log_call, on_env, modify, lift, mret, M_ret.
  unfold mbind at 1 2 3, M_bind at 1 2 3. cbn [self env].
  rewrite Hcalc. by eexists.
Qed.

Lemma get_displacements_computation_raises_witness :
  exists st',
    get_displacements Example.failing true [] (Example.ready Posix [])
    = (Raise (PluginError "MemoryError"), st') /\
    self st' = self (Example.ready Posix []) /\
    fs (env st') = fs (env (Example.ready Posix [])) /\
    calls (env st')
    = (calls (env (Example.ready Posix [])) ++ [CalculateDisplacements])%list.
Proof.
  apply (get_displacements_computation_raises Example.failing true []
           (Example.ready Posix []) (Example.lk (Some 0))
           (PluginError "MemoryError"));
    reflexivity.
Defined.

(** X4. A session built from an array cannot be saved automatically: for a
    coordinator, [get_displacements(autosave=True)] raises [TypeError] in
    the versioner, which takes [cih_file] for a path. The displacements
    are set, but no directory is made, no attribute of the run is set and
    [clear_temp_files] is not called. *)
Theorem get_displacements_autosave_array (ext : collaborators) (kw : kwargs)
    (st : state) (a : ndarray) (p p' : plugin) (d : pyvalue) :
  cih_file (self st) = VArray a ->
  method (self st) = Some p ->
  has_calculate_displacements p = true ->
  calculate_displacements ext (self st) p kw = Ok p' ->
  plugin_displacements p' = Some d ->
  process_number p' = Some 0 ->
  get_displacements ext true kw st
  = (Raise (TypeError "expected str, bytes or os.PathLike object, not ndarray"),
     computed p' d st) /\
  fs (env (computed p' d st)) = fs (env st) /\
  calls (env (computed p' d st))
  = (calls (env st) ++ [CalculateDisplacements])%list /\
  root_analysis (self (computed p' d st)) = root_analysis (self st).
Proof.
  intros Hcih Hm Hc Hcalc Hd Hrank. split; [|done].
  rewrite (get_displacements_computes ext true kw st p p' d Hm Hc Hcalc Hd).
  apply bind_raises. unfold autosave_and_clear. rewrite Hrank.
  change (0 =? 0) with true. cbv iota.
  apply bind_raises. apply bind_raises.
  unfold create_analysis_directory.
  erewrite bind_returns by reflexivity.
  apply bind_raises. unfold lift. cbn [self env computed].
  change (cih_file (with_displacements (Some d) (with_method (Some p') (self st))))
    with (cih_file (self st)).
  by rewrite Hcih.
Qed.

Lemma get_displacements_autosave_array_witness :
  let st := Example.in_memory Posix in
  get_displacements Example.installation true [] st
  = (Raise (TypeError "expected str, bytes or os.PathLike object, not ndarray"),
     computed (Example.lk_done (Some 0)) Example.zeros st) /\
  fs (env (computed (Example.lk_done (Some 0)) Example.zeros st)) = fs (env st) /\
  calls (env (computed (Example.lk_done (Some 0)) Example.zeros st))
  = (calls (env st) ++ [CalculateDisplacements])%list /\
  root_analysis (self (computed (Example.lk_done (Some 0)) Example.zeros st))
  = root_analysis (self st).
Proof.
  apply (get_displacements_autosave_array Example.installation []
           (Example.in_memory Posix) Example.grey_video
           (Example.lk (Some 0)) (Example.lk_done (Some 0)) Example.zeros);
    reflexivity.
Defined.

(** ** Splitting what was joined *)

Section SplitJoin.
Variable o : platform.

Lemma cut_plain (b : string) :
  Str.any (OsPath.is_sep o) b = false -> OsPath.cut o b = None.
Proof.
  induction b as [|c b IH]; [done|]. simpl.
  intros [Hc Hb]%orb_false_iff. by rewrite (IH Hb), Hc.
Qed.

Lemma cut_append (a : string) (c : ascii) (b : string) :
  OsPath.is_sep o c = true -> Str.any (OsPath.is_sep o) b = false ->
  OsPath.cut o (a +:+ String c b) = Some (a +:+ String c EmptyString, b).
Proof.
  intros Hc Hb. induction a as [|x a IH].
  - change (EmptyString +:+ String c b) with (String c b). simpl.
    by rewrite (cut_plain b Hb), Hc.
  - change (String x a +:+ String c b) with (String x (a +:+ String c b)).
    simpl. by rewrite IH.
Qed.

Lemma sep_is_sep : OsPath.is_sep o (OsPath.sep o) = true.
Proof. by destruct o. Qed.

Lemma rstrip_append_sep (a : string) (l c : ascii) :
  Str.last a = Some l -> OsPath.is_sep o l = false -> OsPath.is_sep o c = true ->
  Str.rstrip (OsPath.is_sep o) (a +:+ String c EmptyString) = a /\
  Str.all (OsPath.is_sep o) (a +:+ String c EmptyString) = false.
Proof.
  intros Hl Hnot Hc. induction a as [|x a IH]; [done|].
  change (String x a +:+ String c EmptyString)
    with (String x (a +:+ String c EmptyString)).
  destruct a as [|y a].
  - injection Hl as ->. simpl. by rewrite Hc, Hnot.
  - destruct (IH Hl) as [IH1 IH2]. simpl in *. rewrite IH1, IH2.
    by rewrite andb_false_r.
Qed.

(** [os.path.split] gives back what [os.path.join] put together. *)
Lemma split_join (a b : string) :
  plain_dir o a -> plain_name o b ->
  OsPath.split o (OsPath.join o a b) = (a, b).
Proof.
  intros (l & Hl & Hnot) [Hb Hplain].
  destruct b as [|c b]; [done|].
  assert (OsPath.is_sep o c = false) as Hc.
  { simpl in Hplain. by apply orb_false_iff in Hplain as [? _]. }
  rewrite (join_relative o a c b Hc). unfold OsPath.glue. rewrite Hl, Hnot.
  change (String (OsPath.sep o) EmptyString +:+ String c b)
    with (String (OsPath.sep o) (String c b)).
  unfold OsPath.split. rewrite (cut_append a _ _ sep_is_sep Hplain).
  destruct (rstrip_append_sep a l (OsPath.sep o) Hl Hnot sep_is_sep) as [-> ->].
  done.
Qed.

Lemma split_plain (b : string) :
  plain_name o b -> OsPath.split o (OsPath.join o EmptyString b) = (EmptyString, b).
Proof.
  intros [Hb Hplain]. destruct b as [|c b]; [done|].
  assert (OsPath.is_sep o c = false) as Hc.
  { simpl in Hplain. by apply orb_false_iff in Hplain as [? _]. }
  rewrite (join_relative o _ c b Hc).
  change (EmptyString +:+ OsPath.glue o EmptyString +:+ String c b) with (String c b).
  unfold OsPath.split. by rewrite (cut_plain _ Hplain).
Qed.

End SplitJoin.

(** ** Writing below a directory *)

Section Writing.
Implicit Types (w : world) (st : state).

Lemma parent_check_ready w root0 b :
  directory_ready w root0 -> plain_name (os w) b ->
  parent_check w (OsPath.join (os w) root0 b) = Ok tt.
Proof.
  intros [->|[Hdir Hthere]] Hb; unfold parent_check, OsPath.dirname.
  - by rewrite (split_plain _ _ Hb).
  - rewrite (split_join _ _ _ Hdir Hb). cbn [fst]. rewrite Hthere.
    destruct root0; [|done]. by destruct Hdir as (l & ? & _).
Qed.

(** Writing a file below a ready directory leaves it ready. *)
Lemma directory_ready_insert w root0 c b x :
  OsPath.is_sep (os w) c = false ->
  directory_ready w root0 ->
  directory_ready
    (with_fs (<[OsPath.join (os w) root0 (String c b) := File x]> (fs w)) w) root0.
Proof.
  intros Hc [->|[Hdir Hthere]]; [by left|]. right. split; [done|].
  cbn [fs with_fs]. rewrite lookup_insert_ne; [done|].
  by apply join_ne_self.
Qed.

Lemma open_w_ready w root0 b :
  directory_ready w root0 -> plain_name (os w) b ->
  fs w !! OsPath.join (os w) root0 b <> Some Dir ->
  open_w (OsPath.join (os w) root0 b) w
  = Ok (with_fs (<[OsPath.join (os w) root0 b := File (Text EmptyString)]> (fs w)) w).
Proof.
  intros Hready Hb Hnot. unfold open_w.
  rewrite (parent_check_ready _ _ _ Hready Hb).
  by destruct (fs w !! _) as [[|?]|].
Qed.

Lemma plain_artifact o :
  plain_name o "results.pkl" /\ plain_name o "points.pkl" /\
  plain_name o "settings.txt".
Proof. by destruct o. Qed.

End Writing.

(** X5. [save] fails half-way when the session has no points: the
    displacements are already in [results.pkl], then [AttributeError] is
    raised; [points.pkl] and [settings.txt] are not touched and the plug-in
    is not asked for its settings. *)
Theorem save_without_points (ext : collaborators) (root0 : string)
    (st : state) (d : pyvalue) :
  displacements (self st) = Some d ->
  points (self st) = None ->
  directory_ready (env st) root0 ->
  fs (env st) !! OsPath.join (os (env st)) root0 "results.pkl" <> Some Dir ->
  save ext root0 st
  = (Raise (AttributeError "points"),
     {| self := self st;
        env := with_fs
                 (<[OsPath.join (os (env st)) root0 "results.pkl"
                    := File (Pickled d)]> (fs (env st)))
                 (env st) |}).
Proof.
  intros Hd Hpts Hready Hfree. unfold save.
  destruct (plain_artifact (os (env st))) as (HR & _ & _).
  erewrite bind_returns by reflexivity.
  erewrite bind_returns by (unfold getattr; by rewrite Hd).
  erewrite bind_returns
    by (unfold syscall; by rewrite (open_w_ready _ _ _ Hready HR Hfree)).
  erewrite bind_returns by reflexivity.
  apply bind_raises. unfold getattr. cbn [self env]. rewrite Hpts.
  unfold write. cbn [fs with_fs os clock stdout calls].
  by rewrite insert_insert_eq.
Qed.

Lemma save_without_points_witness :
  let st := Example.after (get_displacements Example.installation false [])
              (Example.after (set_method (MName "lk") []) (Example.fresh Posix)) in
  save Example.installation EmptyString st
  = (Raise (AttributeError "points"),
     {| self := self st;
        env := with_fs
                 (<[OsPath.join Posix EmptyString "results.pkl"
                    := File (Pickled Example.zeros)]> (fs (env st)))
                 (env st) |}).
Proof.
  intros st.
  apply (save_without_points Example.installation EmptyString st Example.zeros).
  - reflexivity.
  - reflexivity.
  - by left.
  - vm_compute. discriminate.
Defined.

(** ** [save] from start to end *)

Section SaveRuns.
Variable ext : collaborators.

Lemma write_after_open p c x f w :
  write p c (with_fs (<[p := File x]> f) w) = with_fs (<[p := File c]> f) w.
Proof. unfold write, with_fs. cbn. by rewrite insert_insert_eq. Qed.

(** With its attributes in place and a directory ready to take the files,
    [save] writes the three files; whether it returns or raises is up to
    the JSON encoder alone, and the text it got out is in [settings.txt]
    either way. *)
Lemma save_runs root0 st d pts p settings name text failure :
  displacements (self st) = Some d ->
  points (self st) = Some pts ->
  method (self st) = Some p ->
  has_create_settings_dict p = true ->
  create_settings_dict ext p = Ok settings ->
  method_name (self st) = Some name ->
  Json.dump (settings_record (self st) (env st) settings name) = (text, failure) ->
  directory_ready (env st) root0 ->
  fs (env st) !! OsPath.join (os (env st)) root0 "results.pkl" <> Some Dir ->
  fs (env st) !! OsPath.join (os (env st)) root0 "points.pkl" <> Some Dir ->
  fs (env st) !! OsPath.join (os (env st)) root0 "settings.txt" <> Some Dir ->
  save ext root0 st
  = (match failure with Some e => Raise e | None => Ok tt end,
     {| self := self st; env := saved root0 d pts text (env st) |}).
Proof.
  intros Hd Hpts Hp Hhas Hset Hname Hdump Hready HR HP HS. unfold save.
  destruct (plain_artifact (os (env st))) as (HnR & HnP & HnS).
  assert (forall c, (c = "r" \/ c = "p" \/ c = "s")%char ->
                    OsPath.is_sep (os (env st)) c = false) as Hsep.
  { intros c [->|[->| ->]]; by destruct (os (env st)). }
  assert (OsPath.join (os (env st)) root0 "points.pkl"
          <> OsPath.join (os (env st)) root0 "results.pkl") as HPR.
  { intros H. apply join_inj in H; [done|apply Hsep; tauto..]. }
  assert (OsPath.join (os (env st)) root0 "settings.txt"
          <> OsPath.join (os (env st)) root0 "results.pkl") as HSR.
  { intros H. apply join_inj in H; [done|apply Hsep; tauto..]. }
  assert (OsPath.join (os (env st)) root0 "settings.txt"
          <> OsPath.join (os (env st)) root0 "points.pkl") as HSP.
  { intros H. apply join_inj in H; [done|apply Hsep; tauto..]. }
  erewrite bind_returns by reflexivity.
  erewrite bind_returns by (unfold getattr; by rewrite Hd).
  erewrite bind_returns
    by (unfold syscall; by rewrite (open_w_ready _ _ _ Hready HnR HR)).
  erewrite bind_returns by reflexivity.
  cbn [self env]. rewrite write_after_open.
  set (w1 := with_fs _ (env st)).
  assert (directory_ready w1 root0) as Hready1.
  { by apply (directory_ready_insert (env st) root0 "r" "esults.pkl");
      [apply Hsep; tauto|]. }
  erewrite bind_returns by (unfold getattr; cbn [self]; by rewrite Hpts).
  erewrite bind_returns.
  2:{ unfold syscall. cbn [self env].
      change (os (env st)) with (os w1).
      rewrite (open_w_ready w1 _ _ Hready1 HnP); [reflexivity|].
      subst w1. cbn [fs with_fs os]. by rewrite lookup_insert_ne. }
  erewrite bind_returns by reflexivity.
  cbn [self env]. change (os w1) with (os (env st)). rewrite write_after_open.
  set (w2 := with_fs _ w1).
  assert (directory_ready w2 root0) as Hready2.
  { by apply (directory_ready_insert w1 root0 "p" "oints.pkl");
      [apply Hsep; tauto|]. }
  erewrite bind_returns by (unfold getattr; cbn [self]; by rewrite Hp).
  rewrite Hhas.
  erewrite bind_returns by reflexivity.
  erewrite bind_returns by reflexivity.
  erewrite bind_returns by (unfold lift; by rewrite Hset).
  erewrite bind_returns by (unfold getattr; cbn [self]; by rewrite Hname).
  erewrite bind_returns.
  2:{ unfold syscall, log_call, on_env, modify. cbn [self env].
      set (w3 := with_calls _ w2).
      assert (directory_ready w3 root0) as Hready3.
      { destruct Hready2 as [?|[? ?]]; [by left | by right]. }
      change (os (env st)) with (os w3).
      rewrite (open_w_ready w3 root0 _ Hready3 HnS); [reflexivity|].
      subst w3 w2 w1. cbn [fs with_fs with_calls os].
      by rewrite !lookup_insert_ne. }
  rewrite Hdump. erewrite bind_returns by reflexivity.
  cbn [self env]. subst w2 w1.
  unfold saved, write, with_fs, with_calls. cbn [os fs clock stdout calls].
  rewrite insert_insert_eq.
  by destruct failure.
Qed.

Lemma dump_settings_record_array s w settings name a :
  cih_file s = VArray a ->
  Json.dump (settings_record s w settings name)
  = ("{" +:+ Json.newline_indent 1 +:+ Json.quote "cih_file" +:+ ": ",
     Some (Json.not_serializable (VArray a))).
Proof.
  intros Hcih. unfold Json.dump. rewrite sort_keys_settings_record, Hcih.
  cbn [Json.iterencode Json.sort_keys]. reflexivity.
Qed.

End SaveRuns.

(** X6. [save] returns whenever the session has displacements, points, a
    bound method that gives its settings and a name for it, the settings
    record can be written as JSON, and the directory is there to take the
    three files: the conditions under which the artifacts of a run are
    written are exactly these, no more. *)
Theorem save_returns_when_ready (ext : collaborators) (root0 : string)
    (st : state) (d pts : pyvalue) (p : plugin) (settings : pyvalue)
    (name text : string) :
  displacements (self st) = Some d ->
  points (self st) = Some pts ->
  method (self st) = Some p ->
  has_create_settings_dict p = true ->
  create_settings_dict ext p = Ok settings ->
  method_name (self st) = Some name ->
  Json.dump (settings_record (self st) (env st) settings name) = (text, None) ->
  directory_ready (env st) root0 ->
  fs (env st) !! OsPath.join (os (env st)) root0 "results.pkl" <> Some Dir ->
  fs (env st) !! OsPath.join (os (env st)) root0 "points.pkl" <> Some Dir ->
  fs (env st) !! OsPath.join (os (env st)) root0 "settings.txt" <> Some Dir ->
  save ext root0 st
  = (Ok tt, {| self := self st; env := saved root0 d pts text (env st) |}).
Proof.
  intros Hd Hpts Hp Hhas Hset Hname Hdump Hready HR HP HS.
  by rewrite (save_runs ext root0 st d pts p settings name text None).
Qed.

Lemma save_returns_when_ready_witness :
  let st := Example.after (get_displacements Example.installation false [])
              (Example.ready Windows []) in
  let text := (Json.dump (settings_record (self st) (env st)
                            (VDict [("roi_size", VInt 5)]) "lk")).1 in
  save Example.installation EmptyString st
  = (Ok tt, {| self := self st;
               env := saved EmptyString Example.zeros
                        (VArray Example.two_points) text (env st) |}).
Proof.
  intros st text.
  apply (save_returns_when_ready Example.installation EmptyString st
           Example.zeros (VArray Example.two_points)
           (Example.lk_done (Some 0)) (VDict [("roi_size", VInt 5)]) "lk" text).
  all: try reflexivity.
  - by left.
  - vm_compute. discriminate.
  - vm_compute. discriminate.
  - vm_compute. discriminate.
Defined.

(** X7. A session built from an array cannot be persisted: with everything
    else in place [save] raises [TypeError], because the array in
    [cih_file] is not JSON serializable. Both pickles have been written by
    then, and [settings.txt] is left with the opening of the document up to
    the key [cih_file], which sorts first. *)
Theorem save_array_session (ext : collaborators) (root0 : string)
    (st : state) (a : ndarray) (d pts : pyvalue) (p : plugin)
    (settings : pyvalue) (name : string) :
  cih_file (self st) = VArray a ->
  displacements (self st) = Some d ->
  points (self st) = Some pts ->
  method (self st) = Some p ->
  has_create_settings_dict p = true ->
  create_settings_dict ext p = Ok settings ->
  method_name (self st) = Some name ->
  directory_ready (env st) root0 ->
  fs (env st) !! OsPath.join (os (env st)) root0 "results.pkl" <> Some Dir ->
  fs (env st) !! OsPath.join (os (env st)) root0 "points.pkl" <> Some Dir ->
  fs (env st) !! OsPath.join (os (env st)) root0 "settings.txt" <> Some Dir ->
  save ext root0 st
  = (Raise (TypeError "Object of type ndarray is not JSON serializable"),
     {| self := self st;
        env := saved root0 d pts
                 ("{" +:+ Json.newline_indent 1 +:+ Json.quote "cih_file" +:+ ": ")
                 (env st) |}).
Proof.
  intros Hcih Hd Hpts Hp Hhas Hset Hname Hready HR HP HS.
  by rewrite (save_runs ext root0 st d pts p settings name _ _
                Hd Hpts Hp Hhas Hset Hname
                (dump_settings_record_array _ _ _ _ a Hcih) Hready HR HP HS).
Qed.

Lemma save_array_session_witness :
  let st := Example.after (get_displacements Example.installation false [])
              (Example.in_memory Posix) in
  save Example.installation EmptyString st
  = (Raise (TypeError "Object of type ndarray is not JSON serializable"),
     {| self := self st;
        env := saved EmptyString Example.zeros (VArray Example.two_points)
                 ("{" +:+ Json.newline_indent 1 +:+ Json.quote "cih_file" +:+ ": ")
                 (env st) |}).
Proof.
  intros st.
  apply (save_array_session Example.installation EmptyString st
           Example.grey_video Example.zeros (VArray Example.two_points)
           (Example.lk_done (Some 0)) (VDict [("roi_size", VInt 5)]) "lk").
  all: try reflexivity.
  - by left.
  - vm_compute. discriminate.
  - vm_compute. discriminate.
  - vm_compute. discriminate.
Defined.


(** ** Numbers written and read back *)

Section Decimal.

Lemma digits_string_of_uint (d : Decimal.uint) (acc : Z) :
  PyInt.digits acc (NilEmpty.string_of_uint d) = Some (uint_value acc d).
Proof.
  revert acc. induction d; intros acc; simpl; try done; by rewrite IHd.
Qed.

Lemma uint_value_acc (d : Decimal.uint) (acc : positive) :
  uint_value (Z.pos acc) d = Z.pos (Pos.of_uint_acc d acc).
Proof.
  revert acc. induction d; intros acc; simpl; try done;
    rewrite <- IHd; f_equal; lia.
Qed.

Lemma uint_value_0 (d : Decimal.uint) :
  uint_value 0 d = Z.of_N (Pos.of_uint d).
Proof.
  induction d; simpl; try done; try assumption; apply (uint_value_acc d).
Qed.

Lemma all_digits_string_of_uint (d : Decimal.uint) :
  Str.all is_digit (NilEmpty.string_of_uint d) = true.
Proof. induction d; simpl; try done. Qed.

(** [str(k)] is a non-empty string of digits that reads as [k]. *)
Lemma str_digits (k : Z) :
  0 <= k ->
  PyInt.str k <> EmptyString /\ Str.all is_digit (PyInt.str k) = true /\
  PyInt.digits 0 (PyInt.str k) = Some k.
Proof.
  intros Hk. unfold PyInt.str. destruct k as [|p|p]; [done| |lia].
  cbn [Z.to_int NilZero.string_of_int].
  pose proof (DecimalPos.Unsigned.to_uint_nonnil p) as Hnil.
  unfold NilZero.string_of_uint.
  destruct (Pos.to_uint p) as [|d|d|d|d|d|d|d|d|d|d] eqn:Hp; [done|..].
  all: rewrite <- Hp; split_and!;
    [ rewrite Hp; done
    | apply all_digits_string_of_uint
    | rewrite digits_string_of_uint, uint_value_0,
        DecimalPos.Unsigned.of_to; done ].
Qed.

End Decimal.

Section ReadBack.

Lemma all_append (f : ascii -> bool) (a b : string) :
  Str.all f (a +:+ b) = Str.all f a && Str.all f b.
Proof.
  induction a as [|x a IH]; [done|].
  change (String x a +:+ b) with (String x (a +:+ b)). simpl.
  by rewrite IH, andb_assoc.
Qed.

Lemma all_replicate (f : ascii -> bool) (n : nat) (c : ascii) :
  f c = true -> Str.all f (Str.replicate n c) = true.
Proof. intros Hc. induction n as [|n IH]; [done|]. simpl. by rewrite Hc, IH. Qed.

Lemma last_append (a b : string) :
  b <> EmptyString -> Str.last (a +:+ b) = Str.last b.
Proof.
  intros Hb. induction a as [|x a IH]; [done|].
  change (String x a +:+ b) with (String x (a +:+ b)).
  simpl. rewrite IH. destruct (a +:+ b) eqn:Hab; [|done].
  destruct a; [|done]. by destruct b.
Qed.

Lemma all_last (f : ascii -> bool) (s : string) (l : ascii) :
  Str.all f s = true -> Str.last s = Some l -> f l = true.
Proof.
  induction s as [|x s IH]; [done|]. simpl.
  intros [Hx Hs]%andb_true_iff. destruct s; [by intros [= <-]|]. by apply IH.
Qed.

Lemma digit_not_space (a : ascii) :
  is_digit a = true -> PyInt.is_space a = false.
Proof.
  destruct a as [[] [] [] [] [] [] [] []]; vm_compute; done.
Qed.

Lemma digit_not_special (a : ascii) :
  is_digit a = true ->
  a <> "-"%char /\ a <> "+"%char /\ a <> "_"%char /\ a <> Str.backslash /\
  a <> Str.slash.
Proof.
  destruct a as [[] [] [] [] [] [] [] []]; vm_compute; done.
Qed.

Lemma rstrip_digits (s : string) :
  Str.all is_digit s = true -> Str.rstrip PyInt.is_space s = s.
Proof.
  induction s as [|x s IH]; [done|]. simpl.
  intros [Hx Hs]%andb_true_iff. rewrite (IH Hs).
  destruct s; [|done]. by rewrite (digit_not_space _ Hx).
Qed.

Lemma digits_zeros (n : nat) (s : string) :
  PyInt.digits 0 (Str.replicate n "0" +:+ s) = PyInt.digits 0 s.
Proof.
  induction n as [|n IH]; [done|].
  change (Str.replicate (S n) "0" +:+ s)
    with (String "0" (Str.replicate n "0" +:+ s)).
  exact IH.
Qed.

(** [int] on a non-empty string of digits is what its digits read as. *)
Lemma int_digits (s : string) (n : Z) :
  s <> EmptyString -> Str.all is_digit s = true ->
  PyInt.digits 0 s = Some n -> PyInt.int s = Ok n.
Proof.
  intros Hs Hall Hn. unfold PyInt.int.
  destruct s as [|a t]; [done|].
  pose proof Hall as Hall'. simpl in Hall'.
  apply andb_true_iff in Hall' as [Ha Ht].
  assert (Str.lstrip PyInt.is_space (String a t) = String a t) as ->.
  { simpl. by rewrite (digit_not_space _ Ha). }
  rewrite (rstrip_digits _ Hall).
  destruct (digit_not_special _ Ha) as (Hminus & Hplus & _).
  assert (match String a t with
          | String "-" t0 => (true, t0)
          | String "+" t0 => (false, t0)
          | _ => (false, String a t)
          end = (false, String a t)) as ->.
  { destruct a as [[] [] [] [] [] [] [] []]; done. }
  by rewrite Hn.
Qed.

Lemma split_without (c : ascii) (s : string) :
  Str.all (fun a => negb (Ascii.eqb a c)) s = true -> Str.split c s = [s].
Proof.
  induction s as [|x s IH]; [done|]. simpl.
  intros [Hx Hs]%andb_true_iff. apply negb_true_iff in Hx.
  by rewrite Hx, (IH Hs).
Qed.

Lemma split_nonempty (c : ascii) (s : string) : Str.split c s <> [].
Proof.
  destruct s as [|x s]; [done|]. simpl.
  destruct (Ascii.eqb x c); [done|]. by destruct (Str.split c s).
Qed.

Lemma split_append (c : ascii) (a b : string) :
  Str.split c (a +:+ String c b) = (Str.split c a ++ Str.split c b)%list.
Proof.
  induction a as [|x a IH].
  - change (EmptyString +:+ String c b) with (String c b). simpl.
    by rewrite Ascii.eqb_refl.
  - change (String x a +:+ String c b) with (String x (a +:+ String c b)).
    simpl. rewrite IH. destruct (Ascii.eqb x c); [done|].
    pose proof (split_nonempty c a). by destruct (Str.split c a).
Qed.

Lemma index_m1_snoc {A} (l : list A) (x : A) : Str.index_m1 (l ++ [x]) = Ok x.
Proof. unfold Str.index_m1. by rewrite reverse_app. Qed.

Lemma index_m2_snoc {A} (l : list A) (x y : A) :
  Str.index_m2 (l ++ [x; y]) = Ok x.
Proof. unfold Str.index_m2. by rewrite reverse_app. Qed.

Lemma all_weaken (f g : ascii -> bool) (s : string) :
  (forall a, f a = true -> g a = true) ->
  Str.all f s = true -> Str.all g s = true.
Proof.
  intros Hfg. induction s as [|x s IH]; [done|]. simpl.
  intros [Hx Hs]%andb_true_iff. by rewrite (Hfg _ Hx), (IH Hs).
Qed.

(** The index that the versioner writes for a number below [2^53]: the
    digits of the number, filled up with zeros to three places. *)
Lemma format_index (k : Z) :
  0 <= k < 2 ^ 53 ->
  PyInt.format_03_0f k = Ok (Str.rjust 3 "0" (PyInt.str k)) /\
  Str.rjust 3 "0" (PyInt.str k) <> EmptyString /\
  Str.all is_digit (Str.rjust 3 "0" (PyInt.str k)) = true /\
  PyInt.int (Str.rjust 3 "0" (PyInt.str k)) = Ok k.
Proof.
  intros [Hk0 Hk]. destruct (str_digits k Hk0) as (Hne & Hall & Hread).
  assert (PyInt.to_float k = Ok k) as Hfloat.
  { unfold PyInt.to_float. destruct (decide (k = 0)) as [->|Hnz]; [done|].
    rewrite Z.abs_eq by done. rewrite (proj2 (Z.eqb_neq k 0) Hnz).
    assert (Z.log2 k < 53) by (apply Z.log2_lt_pow2; lia).
    by rewrite (proj2 (Z.leb_le _ _)) by lia. }
  assert (Str.all is_digit (Str.rjust 3 "0" (PyInt.str k)) = true) as Hall'.
  { unfold Str.rjust. rewrite all_append, Hall, andb_true_r.
    by apply all_replicate. }
  assert (Str.rjust 3 "0" (PyInt.str k) <> EmptyString) as Hne'.
  { unfold Str.rjust. destruct (Str.replicate _ _); [|done].
    by change (EmptyString +:+ PyInt.str k) with (PyInt.str k). }
  split_and!; try done.
  - unfold PyInt.format_03_0f. by rewrite Hfloat.
  - apply int_digits; [done..|]. unfold Str.rjust. by rewrite digits_zeros.
Qed.

End ReadBack.

(** The block reads the number off the last path in the order of the
    strings, when that is the path of a run numbered by the versioner. *)
Lemma last_run_number_of_last (st : state) (analyses : list string)
    (ra : string) (k : Z) :
  plain_dir Windows ra ->
  0 <= k < 2 ^ 53 ->
  let idx := Str.rjust 3 "0" (PyInt.str k) in
  let last_an :=
    OsPath.join Windows (OsPath.join Windows ra ("analysis_" +:+ idx))
      EmptyString in
  Str.index_m1 (sorted analyses) = Ok last_an ->
  analyses <> [] ->
  PyInt.format_03_0f k = Ok idx /\
  last_run_number analyses st
  = (Ok k,
     {| self := self st;
        env := with_stdout
                 (stdout (env st) ++ [last_an +:+ " " +:+ "analysis_" +:+ idx])
                 (env st) |}).
Proof.
  intros (l & Hl & Hsep) Hk idx last_an Hlast Hsome.
  destruct (format_index k Hk) as (Hfmt & Hne & Hall & Hint).
  fold idx in Hfmt, Hne, Hall, Hint.
  split; [done|].
  assert (Str.all not_backslash idx = true) as Hidx_bs.
  { apply (all_weaken is_digit); [|done].
    intros a Ha. destruct (digit_not_special a Ha) as (_ & _ & _ & Hb & _).
    unfold not_backslash. by apply negb_true_iff, Ascii.eqb_neq. }
  assert (Str.all (fun a => negb (Ascii.eqb a "_")) idx = true) as Hidx_us.
  { apply (all_weaken is_digit); [|done].
    intros a Ha. destruct (digit_not_special a Ha) as (_ & _ & Hu & _).
    by apply negb_true_iff, Ascii.eqb_neq. }
  (* the shape of the path *)
  assert (last_an
          = ra +:+ String Str.backslash
                     (("analysis_" +:+ idx) +:+ String Str.backslash EmptyString))
    as Hshape.
  { subst last_an.
    change ("analysis_" +:+ idx) with (String "a" ("nalysis_" +:+ idx)).
    rewrite (join_relative Windows ra "a" _ eq_refl).
    unfold OsPath.glue. rewrite Hl, Hsep.
    change (ra +:+ String (OsPath.sep Windows) EmptyString
              +:+ String "a" ("nalysis_" +:+ idx))
      with (ra +:+ ("\analysis_" +:+ idx)).
    unfold OsPath.join, OsPath.glue.
    assert ("\analysis_" +:+ idx <> EmptyString) as Hne2 by done.
    rewrite (last_append ra _ Hne2), (last_append "\analysis_" idx Hne).
    destruct (Str.last idx) as [d|] eqn:Hd.
    - pose proof (all_last _ _ _ Hall Hd) as Hdigit.
      destruct (digit_not_special d Hdigit) as (_ & _ & _ & Hb & Hs).
      assert (OsPath.is_sep Windows d = false) as ->.
      { simpl. apply Ascii.eqb_neq in Hb, Hs. by rewrite Hb, Hs. }
      rewrite !append_assoc. reflexivity.
    - by apply last_None in Hd. }
  assert (Str.split Str.backslash last_an
          = (Str.split Str.backslash ra ++ ["analysis_" +:+ idx; EmptyString])%list)
    as Hsplit.
  { rewrite Hshape, split_append, split_append. f_equal.
    change (Str.split Str.backslash EmptyString) with [EmptyString].
    rewrite split_without; [done|].
    rewrite all_append. apply andb_true_iff. split; [reflexivity|exact Hidx_bs]. }
  unfold last_run_number. destruct analyses as [|a0 analyses]; [done|].
  erewrite bind_returns by (unfold lift; by rewrite Hlast).
  erewrite bind_returns by (unfold lift; by rewrite Hsplit, index_m2_snoc).
  erewrite bind_returns by reflexivity.
  erewrite bind_returns by (unfold lift; by rewrite Hsplit, index_m2_snoc).
  erewrite bind_returns.
  2:{ unfold lift.
      change ("analysis_" +:+ idx) with ("analysis" +:+ String "_" idx).
      rewrite split_append, (split_without _ idx Hidx_us).
      by rewrite (index_m1_snoc _ idx). }
  unfold lift. by rewrite Hint.
Qed.


(** X8. Where the separator is the backslash, the versioner reads back the
    number it wrote: for a run directory named by
    [create_analysis_directory] with a number [k] below [2^53], the block
    that finds the last run number gives [k] again (and prints the path and
    the name on the way). *)
Theorem last_run_number_reads_back (st : state) (ra : string) (k : Z) :
  plain_dir Windows ra ->
  0 <= k < 2 ^ 53 ->
  exists idx,
    PyInt.format_03_0f k = Ok idx /\
    let last_an :=
      OsPath.join Windows (OsPath.join Windows ra ("analysis_" +:+ idx))
        EmptyString in
    last_run_number [last_an] st
    = (Ok k,
       {| self := self st;
          env := with_stdout
                   (stdout (env st) ++ [last_an +:+ " " +:+ "analysis_" +:+ idx])
                   (env st) |}).
Proof.
  intros Hdir Hk. eexists.
  apply (last_run_number_of_last st _ ra k Hdir Hk); [reflexivity|done].
Qed.

Lemma last_run_number_reads_back_witness :
  exists idx,
    PyInt.format_03_0f 41 = Ok idx /\
    let last_an :=
      OsPath.join Windows
        (OsPath.join Windows "video_pyidi_analysis" ("analysis_" +:+ idx))
        EmptyString in
    last_run_number [last_an] (Example.fresh Windows)
    = (Ok 41,
       {| self := self (Example.fresh Windows);
          env := with_stdout
                   (stdout (env (Example.fresh Windows))
                    ++ [last_an +:+ " " +:+ "analysis_" +:+ idx])
                   (env (Example.fresh Windows)) |}).
Proof.
  apply (last_run_number_reads_back (Example.fresh Windows)
           "video_pyidi_analysis" 41).
  - by exists "s"%char.
  - done.
Defined.

(** ** The registry of a new session *)

Section Registry.
Variable ext : collaborators.

Lemma init_available_methods (w : world) (cih : pyvalue) (s : pyIDI) :
  init ext w cih = Ok s ->
  available_methods s
  = List.map (fun km => (km.1, {| IDIMethod := km.2; description := obj_doc km.2 |}))
      (available_method_shortcuts ext).
Proof.
  unfold init, mbind, res_bind. intros H.
  repeat case_match; by simplify_eq.
Qed.

Lemma init_cih_file (w : world) (cih : pyvalue) (s : pyIDI) :
  init ext w cih = Ok s ->
  cih_file s = cih /\ method_name s = None /\ method s = None /\ points s = None.
Proof.
  unfold init, mbind, res_bind. intros H.
  repeat case_match; by simplify_eq.
Qed.

(** Looking a name up in the registry of a new session. *)
Lemma dict_get_registry (w : world) (cih : pyvalue) (s : pyIDI) (name : string) :
  init ext w cih = Ok s ->
  dict_get (available_methods s) name
  = (fun c => {| IDIMethod := c; description := obj_doc c |})
      <$> (if decide (name = "sof") then Some (SimplifiedOpticalFlow ext)
           else if decide (name = "lk") then Some (LucasKanade ext)
           else if decide (name = "lk_scipy") then Some (LucasKanadeSc ext)
           else if decide (name = "lk_scipy2") then Some (LucasKanadeSc2 ext)
           else None).
Proof.
  intros ->%init_available_methods.
  unfold dict_get, available_method_shortcuts. cbn [List.map fst snd list_find].
  destruct (decide (name = "sof")) as [->|H1]; [reflexivity|].
  rewrite (decide_False (P := bool_decide ("sof" = name)))
    by (rewrite bool_decide_spec; congruence).
  destruct (decide (name = "lk")) as [->|H2]; [reflexivity|].
  rewrite (decide_False (P := bool_decide ("lk" = name)))
    by (rewrite bool_decide_spec; congruence).
  destruct (decide (name = "lk_scipy")) as [->|H3]; [reflexivity|].
  rewrite (decide_False (P := bool_decide ("lk_scipy" = name)))
    by (rewrite bool_decide_spec; congruence).
  destruct (decide (name = "lk_scipy2")) as [->|H4]; [reflexivity|].
  rewrite (decide_False (P := bool_decide ("lk_scipy2" = name)))
    by (rewrite bool_decide_spec; congruence).
  reflexivity.
Qed.

End Registry.

(** X9. A session that the constructor has built knows exactly the four
    names of [available_method_shortcuts]: binding by one of them calls the
    class listed under it, and any other name (the method [gb], which is
    commented out, among them) is rejected with the session as it was. *)
Theorem init_registers_four_names (ext : collaborators) (w w' : world)
    (cih : pyvalue) (s : pyIDI) (name : string) (kw : kwargs) :
  init ext w cih = Ok s ->
  (is_Some (dict_get (available_methods s) name)
   <-> name ∈ ["sof"; "lk"; "lk_scipy"; "lk_scipy2"]) /\
  (name ∉ ["sof"; "lk"; "lk_scipy"; "lk_scipy2"] ->
   set_method (MName name) kw {| self := s; env := w' |}
   = (Raise not_a_method, {| self := s; env := w' |})) /\
  (forall c p,
     (name, c) ∈ available_method_shortcuts ext ->
     obj_call c kw = Ok p -> has_calculate_displacements p = true ->
     set_method (MName name) kw {| self := s; env := w' |}
     = (Ok tt, bound name p {| self := s; env := w' |})).
Proof.
  intros Hinit. pose proof (dict_get_registry ext w cih s name Hinit) as Hget.
  assert (is_Some (dict_get (available_methods s) name)
          <-> name ∈ ["sof"; "lk"; "lk_scipy"; "lk_scipy2"]) as Hiff.
  { rewrite Hget.
    destruct (decide (name = "sof")) as [->|H1];
      [split; [intros _; set_solver | by eexists]|].
    destruct (decide (name = "lk")) as [->|H2];
      [split; [intros _; set_solver | by eexists]|].
    destruct (decide (name = "lk_scipy")) as [->|H3];
      [split; [intros _; set_solver | by eexists]|].
    destruct (decide (name = "lk_scipy2")) as [->|H4];
      [split; [intros _; set_solver | by eexists]|].
    split; [by intros [? [=]]|]. intros Hx.
    repeat (apply elem_of_cons in Hx as [?|Hx]; [done|]).
    by apply elem_of_nil in Hx. }
  split_and!; [done|..].
  - intros Hout. apply set_method_unregistered. cbn [self].
    destruct (dict_get (available_methods s) name) eqn:Hd; [|done].
    destruct Hout. apply Hiff. by eexists.
  - intros c p Hin Hcall Hcap.
    assert (dict_get (available_methods s) name
            = Some {| IDIMethod := c; description := obj_doc c |}) as Hd.
    { rewrite Hget. unfold available_method_shortcuts in Hin.
      repeat (apply elem_of_cons in Hin as [[= -> ->]|Hin]; [reflexivity|]).
      by apply elem_of_nil in Hin. }
    unfold set_method. run. cbn [self]. rewrite Hd. cbn. rewrite Hcall. cbn.
    by rewrite Hcap.
Qed.

Lemma init_registers_four_names_witness :
  (is_Some (dict_get (available_methods (self (Example.fresh Posix))) "gb")
   <-> "gb" ∈ ["sof"; "lk"; "lk_scipy"; "lk_scipy2"]) /\
  ("gb" ∉ ["sof"; "lk"; "lk_scipy"; "lk_scipy2"] ->
   set_method (MName "gb") [] (Example.fresh Posix)
   = (Raise not_a_method, Example.fresh Posix)) /\
  (forall c p,
     ("gb", c) ∈ available_method_shortcuts Example.installation ->
     obj_call c [] = Ok p -> has_calculate_displacements p = true ->
     set_method (MName "gb") [] (Example.fresh Posix)
     = (Ok tt, bound "gb" p (Example.fresh Posix))).
Proof.
  exact (init_registers_four_names Example.installation (Example.machine Posix)
           (Example.machine Posix) (VStr "video.cih")
           (self (Example.fresh Posix)) "gb" [] eq_refl).
Defined.

(** ** Printing a session *)

(** X10. A session that the constructor has loaded from a file prints as
    five entries, taken from the file name and the metadata of
    [pyMRAW.load_video]; the constructor does not need the record rate,
    printing does: without it in the metadata the session is built and
    printing it raises what the look-up raises ([KeyError] for a [dict]). *)
Theorem repr_after_init (ext : collaborators)
    (str_other : pyvalue -> string) (str_size : Q -> string)
    (str_plus_array : string -> ndarray -> res string)
    (w : world) (p : string) (frames meta n wd h : pyvalue) :
  load_video ext p = Ok (frames, meta) ->
  getitem meta "Total Frame" = Ok n ->
  getitem meta "Image Width" = Ok wd ->
  getitem meta "Image Height" = Ok h ->
  exists s,
    init ext w (VStr p) = Ok s /\
    __repr__ str_other str_size str_plus_array s
    = match getitem meta "Record Rate(fps)" with
      | Ok rate =>
          Ok ("File name: " +:+ p +:+ comma_newline
              +:+ "Image width: " +:+ py_str str_other wd +:+ comma_newline
              +:+ "Image height: " +:+ py_str str_other h +:+ comma_newline
              +:+ "Total frame: " +:+ py_str str_other n +:+ comma_newline
              +:+ "Record Rate(fps): " +:+ py_str str_other rate)
      | Raise e => Raise e
      end.
Proof.
  intros Hload Hn Hwd Hh. eexists. split.
  - unfold init, mbind, res_bind. rewrite Hload. cbn [fst snd].
    rewrite Hn, Hwd, Hh. reflexivity.
  - unfold __repr__, concat_str, mbind, res_bind.
    cbn [cih_file info method_name points image_width image_height N].
    destruct (getitem meta "Record Rate(fps)") as [rate|e]; [|done].
    by rewrite append_assoc.
Qed.

Lemma repr_after_init_witness :
  exists s,
    init Example.installation (Example.machine Posix) (VStr "video.cih") = Ok s /\
    __repr__ (fun _ => "object") (fun _ => "5") (fun _ _ => Ok EmptyString) s
    = Raise (KeyError "Record Rate(fps)").
Proof.
  exact (repr_after_init Example.installation
           (fun _ => "object") (fun _ => "5") (fun _ _ => Ok EmptyString)
           (Example.machine Posix) "video.cih"
           (VObject "memmap") Example.metadata (VInt 50) (VInt 64) (VInt 64)
           eq_refl eq_refl eq_refl eq_refl).
Defined.

(** X11. After a first binding that failed in the constructor the session
    has a [method_name] but no [method]: a session that printed before the
    call no longer prints, [__repr__] raises [AttributeError] on
    [self.method]. *)
Theorem repr_after_failed_binding
    (str_other : pyvalue -> string) (str_size : Q -> string)
    (str_plus_array : string -> ndarray -> res string)
    (st : state) (kw : kwargs) (m : method_arg) (e : exn)
    (p : string) (rate : pyvalue) :
  cih_file (self st) = VStr p ->
  getitem (info (self st)) "Record Rate(fps)" = Ok rate ->
  method_name (self st) = None -> method (self st) = None ->
  points (self st) = None ->
  constructor_raises (self st) kw m e ->
  (exists text, __repr__ str_other str_size str_plus_array (self st) = Ok text) /\
  exists e' st',
    set_method m kw st = (Raise e', st') /\
    __repr__ str_other str_size str_plus_array (self st')
    = Raise (AttributeError "method").
Proof.
  intros Hfile Hrate Hname Hmethod Hpoints Hcons. split.
  - unfold __repr__, concat_str, mbind, res_bind.
    rewrite Hfile, Hrate, Hname, Hpoints. by eexists.
  - do 2 eexists. split; [by apply set_method_constructor_raises|].
    unfold __repr__, concat_str, mbind, res_bind, renamed.
    cbn [self cih_file info method_name method with_method_name].
    by rewrite Hfile, Hrate, Hmethod.
Qed.

Lemma repr_after_failed_binding_witness :
  (exists text,
     __repr__ (fun _ => "object") (fun _ => "5") (fun _ _ => Ok EmptyString)
       (self (Example.recorded Posix "video.cih")) = Ok text) /\
  exists e' st',
    set_method (MName "sof") Example.bogus (Example.recorded Posix "video.cih")
    = (Raise e', st') /\
    __repr__ (fun _ => "object") (fun _ => "5") (fun _ _ => Ok EmptyString)
      (self st')
    = Raise (AttributeError "method").
Proof.
  apply (repr_after_failed_binding
           (fun _ => "object") (fun _ => "5") (fun _ _ => Ok EmptyString)
           (Example.recorded Posix "video.cih") Example.bogus (MName "sof")
           (TypeError "configure() got an unexpected keyword argument")
           "video.cih" (VInt 5000));
    try reflexivity.
  by eexists.
Defined.

(** X12. A session built from an array of numbers cannot be printed:
    [__repr__] appends the array to the text ['File name: '], which [numpy]
    refuses with a [TypeError]. *)
Theorem repr_array_session (ext : collaborators)
    (str_other : pyvalue -> string) (str_size : Q -> string)
    (str_plus_array : string -> ndarray -> res string)
    (w : world) (a : ndarray) (s : pyIDI) :
  init ext w (VArray a) = Ok s ->
  numeric_dtype (dtype a) = true ->
  exists msg,
    __repr__ str_other str_size str_plus_array s = Raise (TypeError msg).
Proof.
  intros [Hfile _]%init_cih_file Hnum.
  unfold __repr__, concat_str, mbind, res_bind. rewrite Hfile, Hnum.
  by eexists.
Qed.

Lemma repr_array_session_witness :
  exists msg,
    __repr__ (fun _ => "object") (fun _ => "5") (fun _ _ => Ok EmptyString)
      {| cih_file := VArray Example.grey_video; root := EmptyString;
         available_methods := available_methods (self (Example.fresh Posix));
         mraw := VArray Example.grey_video; info := VDict [];
         N := VInt 50; image_width := VInt 64; image_height := VInt 48;
         method_name := None; method := None; points := None;
         displacements := None; root_analysis := None;
         root_this_analysis := None |}
    = Raise (TypeError msg).
Proof.
  exact (repr_array_session Example.installation
           (fun _ => "object") (fun _ => "5") (fun _ _ => Ok EmptyString)
           (Example.machine Posix) Example.grey_video _ eq_refl eq_refl).
Defined.

(** ** The video of a session *)

Section KeepsVideo.
Context {S : Type} (session : S -> pyIDI).

Lemma same_video_refl (s : pyIDI) : same_video s s.
Proof. by repeat split. Qed.

Lemma same_video_trans (s1 s2 s3 : pyIDI) :
  same_video s1 s2 -> same_video s2 s3 -> same_video s1 s3.
Proof.
  intros (?&?&?&?&?&?&?&?) (?&?&?&?&?&?&?&?).
  unfold same_video. split_and!; congruence.
Qed.

Lemma keeps_video_bind {A B} (m : M S A) (f : A -> M S B) :
  keeps_video session m -> (forall a, keeps_video session (f a)) ->
  keeps_video session (m ≫= f).
Proof.
  intros Hm Hf st r st' H. unfold mbind, M_bind in H.
  destruct (m st) as [[a|e] st1] eqn:E.
  - eapply same_video_trans; [by eapply Hm|by eapply Hf].
  - injection H as <- <-. by eapply Hm.
Qed.

(** A statement that does not touch the session. *)
Lemma keeps_video_same {A} (m : M S A) :
  (forall st r st', m st = (r, st') -> session st' = session st) ->
  keeps_video session m.
Proof. intros H st r st' Hm. rewrite (H _ _ _ Hm). apply same_video_refl. Qed.

Lemma keeps_video_ret {A} (a : A) : keeps_video session (mret a).
Proof. apply keeps_video_same. by intros st r st' [= _ <-]. Qed.

Lemma keeps_video_raise {A} (e : exn) : keeps_video session (raise (A := A) e).
Proof. apply keeps_video_same. by intros st r st' [= _ <-]. Qed.

Lemma keeps_video_lift {A} (x : res A) : keeps_video session (lift x).
Proof. apply keeps_video_same. by intros st r st' [= _ <-]. Qed.

Lemma keeps_video_get : keeps_video session get.
Proof. apply keeps_video_same. by intros st r st' [= _ <-]. Qed.

End KeepsVideo.

Create HintDb keeps.

#[export] Hint Resolve keeps_video_ret keeps_video_raise keeps_video_lift
  keeps_video_get : keeps.

Section KeepsVideoSession.
Variable ext : collaborators.

Lemma keeps_video_getattr {A} name (field : pyIDI -> option A) :
  keeps_video self (getattr name field).
Proof.
  apply keeps_video_same. intros st r st'. unfold getattr.
  destruct (field (self st)); by intros [= _ <-].
Qed.

Lemma keeps_video_on_env f : keeps_video self (on_env f).
Proof. apply keeps_video_same. by intros st r st' [= _ <-]. Qed.

Lemma keeps_video_syscall f : keeps_video self (syscall f).
Proof.
  apply keeps_video_same. intros st r st'. unfold syscall.
  destruct (f (env st)); by intros [= _ <-].
Qed.

Lemma keeps_video_log_call c : keeps_video self (log_call c).
Proof. apply keeps_video_on_env. Qed.

(** The six attributes that the methods assign are not among those of the
    video. *)
Lemma keeps_video_on_self f :
  (forall s, same_video s (f s)) -> keeps_video self (on_self f).
Proof. intros H st r st' [= _ <-]. apply H. Qed.

End KeepsVideoSession.

#[export] Hint Resolve keeps_video_getattr keeps_video_on_env keeps_video_syscall
  keeps_video_log_call : keeps.
#[export] Hint Extern 1 (keeps_video self (on_self _)) =>
  (apply keeps_video_on_self; intros ?; repeat split; reflexivity) : keeps.

Ltac keeps :=
  repeat first
    [ solve [auto with keeps]
    | apply keeps_video_bind; [|intros ?]
    | case_match ].

Section KeepsVideoMethods.
Variable ext : collaborators.

Lemma keeps_video_set_method m kw : keeps_video self (set_method m kw).
Proof. unfold set_method. keeps. Qed.

Lemma keeps_video_set_points pts m kw :
  keeps_video self (set_points ext pts m kw).
Proof. unfold set_points. pose proof keeps_video_set_method. keeps. Qed.

Lemma keeps_video_last_run_number analyses :
  keeps_video self (last_run_number analyses).
Proof. unfold last_run_number. keeps. Qed.

Lemma keeps_video_create_analysis_directory :
  keeps_video self create_analysis_directory.
Proof.
  unfold create_analysis_directory. pose proof keeps_video_last_run_number.
  keeps.
Qed.

Lemma keeps_video_save root0 : keeps_video self (save ext root0).
Proof. unfold save. keeps. Qed.

Lemma keeps_video_autosave_and_clear autosave p :
  keeps_video self (autosave_and_clear ext autosave p).
Proof.
  unfold autosave_and_clear.
  pose proof keeps_video_create_analysis_directory.
  pose proof keeps_video_save. keeps.
Qed.

Lemma keeps_video_get_displacements autosave kw :
  keeps_video self (get_displacements ext autosave kw).
Proof.
  unfold get_displacements. pose proof keeps_video_autosave_and_clear. keeps.
Qed.

End KeepsVideoMethods.

Section KeepsVideoViewer.
Variable ext : collaborators.

Lemma keeps_video_video_attr {A} name (field : pyIDI -> option A) :
  keeps_video video (video_attr name field).
Proof.
  apply keeps_video_same. intros g r g'. unfold video_attr.
  destruct (field (video g)); by intros [= _ <-].
Qed.

Lemma keeps_video_layer {A} name (field : viewer -> option A) :
  keeps_video video (layer name field).
Proof.
  apply keeps_video_same. intros g r g'. unfold layer.
  destruct (field (layers g)); by intros [= _ <-].
Qed.

Lemma keeps_video_on_layers f : keeps_video video (on_layers f).
Proof. apply keeps_video_same. by intros g r g' [= _ <-]. Qed.

Lemma keeps_video_on_video x : keeps_video video (on_video (with_points x)).
Proof. intros g r g' [= _ <-]. by repeat split. Qed.

Hint Resolve keeps_video_video_attr keeps_video_layer keeps_video_on_layers
  keeps_video_on_video : keeps.

Lemma keeps_video_view_ROI : keeps_video video view_ROI.
Proof. unfold view_ROI. keeps. Qed.

Lemma keeps_video_grid_points h v k : keeps_video video (grid_points ext h v k).
Proof. unfold grid_points. keeps. Qed.

Lemma keeps_video_widget_grid h v k show :
  keeps_video video (widget_grid ext h v k show).
Proof.
  unfold widget_grid. pose proof keeps_video_view_ROI.
  pose proof keeps_video_grid_points. keeps.
Qed.

Lemma keeps_video_call as_layer_data marker_ndim :
  keeps_video video (__call__ as_layer_data marker_ndim).
Proof. unfold __call__. pose proof keeps_video_view_ROI. keeps. Qed.

End KeepsVideoViewer.

(** X13. No method of the class reassigns what the constructor has derived
    from its argument (the file name or array, the root, the registry, the
    frames, the metadata and the three sizes): whether a call returns or
    raises, the session is still a session on the same video. What a
    plug-in does to the session it is handed is outside this statement. *)
Theorem methods_keep_video (ext : collaborators)
    (as_layer_data : pyvalue -> res ndarray) (marker_ndim : nat) :
  (forall m kw, keeps_video self (set_method m kw)) /\
  (forall pts m kw, keeps_video self (set_points ext pts m kw)) /\
  (forall autosave kw, keeps_video self (get_displacements ext autosave kw)) /\
  keeps_video self create_analysis_directory /\
  (forall root0, keeps_video self (save ext root0)) /\
  keeps_video video (__call__ as_layer_data marker_ndim) /\
  (forall h v k show, keeps_video video (widget_grid ext h v k show)).
Proof.
  split_and!.
  - apply keeps_video_set_method.
  - apply keeps_video_set_points.
  - apply keeps_video_get_displacements.
  - apply keeps_video_create_analysis_directory.
  - apply keeps_video_save.
  - apply keeps_video_call.
  - apply keeps_video_widget_grid.
Qed.

(** ** Opening the viewer *)

(** X14. [set_points] with points given stores them and looks at nothing
    else: a [method] handed over in the same call is not bound. Opening
    the viewer on the session then fails, after the layer of points has
    been added, with [AttributeError] on [self.method]. *)
Theorem call_with_points_without_method (ext : collaborators)
    (as_layer_data : pyvalue -> res ndarray) (marker_ndim : nat)
    (st : state) (a data : ndarray) (m : option method_arg) (kw : kwargs) :
  method (self st) = None ->
  as_layer_data (VArray a) = Ok data ->
  let s' := with_points (Some (VArray a)) (self st) in
  set_points ext (Some a) m kw st = (Ok tt, {| self := s'; env := env st |}) /\
  opening as_layer_data marker_ndim s'
  = (Raise (AttributeError "method"),
     {| video := s'; layers := with_layer_Points (Some data) blank_viewer |}).
Proof.
  intros Hm Hdata s'. subst s'. split; [reflexivity|].
  unfold opening, __call__.
  erewrite bind_returns by reflexivity. cbn [video points with_points].
  erewrite bind_returns by (unfold lift; by rewrite Hdata).
  erewrite bind_returns by reflexivity.
  apply bind_raises. unfold view_ROI. apply bind_raises.
  unfold video_attr. cbn [video method with_points]. by rewrite Hm.
Qed.

Lemma call_with_points_without_method_witness :
  let s' := with_points (Some (VArray Example.two_points))
              (self (Example.fresh Posix)) in
  set_points Example.installation (Some Example.two_points)
    (Some (MName "lk")) [] (Example.fresh Posix)
  = (Ok tt, {| self := s'; env := env (Example.fresh Posix) |}) /\
  opening (fun _ => Ok Example.two_points) 2 s'
  = (Raise (AttributeError "method"),
     {| video := s';
        layers := with_layer_Points (Some Example.two_points) blank_viewer |}).
Proof.
  exact (call_with_points_without_method Example.installation
           (fun _ => Ok Example.two_points) 2%nat (Example.fresh Posix)
           Example.two_points Example.two_points (Some (MName "lk")) []
           eq_refl eq_refl).
Defined.

(** X15. Opening the viewer on a session without points and pressing the
    button at once, with the box display off, leaves the session as it
    was: no [points] attribute, whatever the sizes and the overlap typed
    in; the layer of points then holds the empty integer array. *)
Theorem selector_confirmed_at_once (ext : collaborators)
    (as_layer_data : pyvalue -> res ndarray) (marker_ndim : nat)
    (s : pyIDI) (h v k : Z) :
  points s = None ->
  (__call__ as_layer_data marker_ndim;; widget_grid ext h v k false)
    {| video := s; layers := blank_viewer |}
  = (Ok tt,
     {| video := s;
        layers :=
          {| layer_Points :=
               Some {| dtype := "int64"; shape := [0%nat; marker_ndim];
                       elems := [] |};
             layer_Area_Selection := Some [];
             layer_Area_Deselection := Some [];
             layer_ROI_box := None |} |}).
Proof.
  intros Hpts. destruct s. simpl in Hpts. subst. reflexivity.
Qed.

Lemma selector_confirmed_at_once_witness :
  (__call__ (fun _ => Ok Example.two_points) 2;;
   widget_grid Example.installation 5 5 0 false)
    {| video := self (Example.fresh Posix); layers := blank_viewer |}
  = (Ok tt,
     {| video := self (Example.fresh Posix);
        layers :=
          {| layer_Points :=
               Some {| dtype := "int64"; shape := [0%nat; 2%nat];
                       elems := [] |};
             layer_Area_Selection := Some [];
             layer_Area_Deselection := Some [];
             layer_ROI_box := None |} |}).
Proof.
  exact (selector_confirmed_at_once Example.installation
           (fun _ => Ok Example.two_points) 2%nat
           (self (Example.fresh Posix)) 5 5 0 eq_refl).
Defined.

(** X16. With the box display on and no method bound, the button fails on
    [self.method] after it has assigned the points: the session is left
    with a [points] attribute even when the selection is empty, the case
    in which a completed run deletes it. *)
Theorem widget_grid_box_without_method (ext : collaborators)
    (h v k : Z) (g : gui) (a : ndarray) :
  grid_points ext h v k g = (Ok a, g) ->
  method (video g) = None ->
  widget_grid ext h v k true g
  = (Raise (AttributeError "method"),
     {| video := with_points (Some (VArray a)) (video g);
        layers := with_layer_ROI_box None (layers g) |}).
Proof.
  intros Hgrid Hm. unfold widget_grid.
  erewrite bind_returns by exact Hgrid.
  erewrite bind_returns by reflexivity.
  erewrite bind_returns by reflexivity.
  apply bind_raises. unfold view_ROI. apply bind_raises.
  unfold video_attr. cbn [video method with_points]. by rewrite Hm.
Qed.

Lemma widget_grid_box_without_method_witness :
  widget_grid Example.installation 5 5 0 true (Example.opened Posix)
  = (Raise (AttributeError "method"),
     {| video := with_points
                   (Some (VArray (Np.round_astype_int Example.no_markers)))
                   (video (Example.opened Posix));
        layers := with_layer_ROI_box None (layers (Example.opened Posix)) |}).
Proof.
  exact (widget_grid_box_without_method Example.installation 5 5 0
           (Example.opened Posix) (Np.round_astype_int Example.no_markers)
           eq_refl eq_refl).
Defined.

(** X17. When the selection gives at least one point, a run of
    [widget_grid] with the box display off returns whenever the viewer has
    its layer of points, and leaves the grid both in the [points]
    attribute of the session and in that layer, with no layer of boxes. *)
Theorem widget_grid_selection (ext : collaborators)
    (h v k : Z) (g : gui) (a : ndarray) (n : nat) :
  grid_points ext h v k g = (Ok a, g) ->
  array_len a = Ok (S n) ->
  is_Some (layer_Points (layers g)) ->
  widget_grid ext h v k false g
  = (Ok tt,
     {| video := with_points (Some (VArray a)) (video g);
        layers := with_layer_Points (Some a)
                    (with_layer_ROI_box None (layers g)) |}).
Proof.
  intros Hgrid Hlen [old Hold]. unfold widget_grid.
  erewrite bind_returns by exact Hgrid.
  run. rewrite Hold. cbn. by rewrite Hlen.
Qed.

Lemma widget_grid_selection_witness :
  let g := {| video := self (Example.fresh Posix);
              layers := {| layer_Points := Some Example.two_points;
                           layer_Area_Selection := Some [];
                           layer_Area_Deselection := Some [];
                           layer_ROI_box := None |} |} in
  widget_grid Example.installation 5 5 0 false g
  = (Ok tt,
     {| video := with_points
                   (Some (VArray (Np.round_astype_int Example.two_points)))
                   (video g);
        layers := with_layer_Points
                    (Some (Np.round_astype_int Example.two_points))
                    (with_layer_ROI_box None (layers g)) |}).
Proof.
  intros g.
  apply (widget_grid_selection Example.installation 5 5 0 g
           (Np.round_astype_int Example.two_points) 1 eq_refl eq_refl).
  by eexists.
Defined.

(** ** Points from the method *)

(** X18. [set_points] without points asks the bound plug-in for them. A
    method handed over in the call is ignored when one is bound already;
    when none is bound it is bound first and without keyword arguments,
    which all go to [get_points]: the call then does what it does on the
    session with the method bound, and a binding that raises ends it.
    With neither points, nor a bound method, nor a method to bind, it
    raises [ValueError] and changes nothing. When [get_points] raises, the
    points are as they were and the method stays bound. *)
Theorem set_points_from_method (ext : collaborators) (st : state)
    (kw : kwargs) :
  (forall p m, method (self st) = Some p ->
     set_points ext None m kw st
     = match get_points ext (self st) p kw with
       | Ok v => (Ok tt, {| self := with_points (Some v) (self st);
                            env := env st |})
       | Raise e => (Raise e, st)
       end) /\
  (method (self st) = None ->
   (forall m st1, set_method m [] st = (Ok tt, st1) ->
      set_points ext None (Some m) kw st = set_points ext None None kw st1) /\
   (forall m e st1, set_method m [] st = (Raise e, st1) ->
      set_points ext None (Some m) kw st = (Raise e, st1)) /\
   set_points ext None None kw st
   = (Raise (ValueError
        "Invalid arguments. Please input points, or set the IDI method first."),
      st)).
Proof.
  split; [|intros Hm; split_and!].
  - intros p m Hm. unfold set_points. run. rewrite !Hm.
    by destruct (get_points ext (self st) p kw).
  - intros m st1 Hset.
    destruct (set_method_returns _ _ _ _ Hset) as (p & -> & _).
    unfold set_points.
    erewrite bind_returns by reflexivity. rewrite Hm.
    erewrite (bind_returns (set_method m [])) by exact Hset.
    erewrite (bind_returns get) by reflexivity.
    cbn [bound self method with_method with_method_name].
    reflexivity.
  - intros m e st1 Hset. unfold set_points.
    erewrite bind_returns by reflexivity. rewrite Hm.
    by apply bind_raises.
  - unfold set_points. run. by rewrite Hm.
Qed.

Lemma set_points_from_method_witness :
  set_points Example.installation None (Some (MName "lk")) Example.bogus
    (Example.fresh Posix)
  = set_points Example.installation None None Example.bogus
      (bound "lk" (Example.lk (Some 0)) (Example.fresh Posix)).
Proof.
  destruct (set_points_from_method Example.installation (Example.fresh Posix)
              Example.bogus) as [_ Hunbound].
  destruct (Hunbound eq_refl) as [Hbinds _].
  exact (Hbinds (MName "lk")
           (bound "lk" (Example.lk (Some 0)) (Example.fresh Posix)) eq_refl).
Defined.

(** ** The first run, and the next *)

Section FirstRun.
Variable o : platform.

Lemma any_append (f : ascii -> bool) (a b : string) :
  Str.any f (a +:+ b) = Str.any f a || Str.any f b.
Proof.
  induction a as [|x a IH]; [done|].
  change (String x a +:+ b) with (String x (a +:+ b)). simpl.
  by rewrite IH, orb_assoc.
Qed.

(** What [os.path.split] leaves behind the last separator has none. *)
Lemma cut_tail_plain (p : string) :
  match OsPath.cut o p with
  | Some (_, t) => Str.any (OsPath.is_sep o) t = false
  | None => Str.any (OsPath.is_sep o) p = false
  end.
Proof.
  induction p as [|c p IH]; [done|]. simpl.
  destruct (OsPath.cut o p) as [[h t]|]; [done|].
  destruct (OsPath.is_sep o c); [done|]. by rewrite IH.
Qed.

Lemma split_tail_plain (p : string) :
  Str.any (OsPath.is_sep o) (OsPath.split o p).2 = false.
Proof.
  unfold OsPath.split. pose proof (cut_tail_plain p) as H.
  destruct (OsPath.cut o p) as [[h t]|]; [|done].
  by destruct (Str.all (OsPath.is_sep o) h).
Qed.

(** The pieces of a text hold no character that the text does not hold. *)
Lemma split_pieces (f : ascii -> bool) (c : ascii) (s : string) :
  Str.any f s = false -> Forall (fun x => Str.any f x = false) (Str.split c s).
Proof.
  induction s as [|x s IH]; [by repeat constructor|]. simpl.
  intros [Hx Hs]%orb_false_iff. specialize (IH Hs).
  destruct (Ascii.eqb x c); [by constructor|].
  destruct (Str.split c s) as [|w ws]; [by repeat constructor; simpl; rewrite Hx|].
  inversion IH as [|? ? Hw Hws]; subst. constructor; [|done].
  simpl. by rewrite Hx, Hw.
Qed.

(** The name of the analysis root is a plain name ending in [s]. *)
Lemma stem_of_index (p : string) :
  Str.index_0 (Str.split "." (OsPath.split o p).2) = Ok (stem_of o p).
Proof.
  unfold stem_of. pose proof (split_nonempty "." (OsPath.split o p).2) as H.
  by destruct (Str.split "." (OsPath.split o p).2).
Qed.

Lemma stem_of_plain (p : string) :
  plain_name o (stem_of o p +:+ "_pyidi_analysis") /\
  Str.last (stem_of o p +:+ "_pyidi_analysis") = Some "s"%char.
Proof.
  split; [split|].
  - by destruct (stem_of o p).
  - rewrite any_append. apply orb_false_iff. split; [|by destruct o].
    unfold stem_of.
    pose proof (split_pieces (OsPath.is_sep o) "." _ (split_tail_plain p)) as H.
    destruct (Str.split "." (OsPath.split o p).2) as [|x l]; [done|].
    by inversion H.
  - by rewrite last_append.
Qed.

Lemma join_plain (a b : string) :
  plain_name o b -> OsPath.join o a b = a +:+ (OsPath.glue o a +:+ b).
Proof.
  intros [Hb Hplain]. destruct b as [|c b]; [done|].
  apply join_relative. simpl in Hplain.
  by apply orb_false_iff in Hplain as [? _].
Qed.

Lemma join_plain_last (a b : string) :
  plain_name o b -> Str.last (OsPath.join o a b) = Str.last b.
Proof.
  intros Hb. rewrite (join_plain a b Hb).
  destruct Hb as [Hb _]. rewrite last_append; [|by destruct (OsPath.glue o a), b].
  by apply last_append.
Qed.

Lemma join_plain_ne (a b : string) :
  plain_name o b -> OsPath.join o a b <> a /\ OsPath.join o a b <> EmptyString.
Proof.
  intros Hb. pose proof Hb as [Hne Hplain]. destruct b as [|c b]; [done|].
  assert (OsPath.is_sep o c = false) as Hc.
  { simpl in Hplain. by apply orb_false_iff in Hplain as [? _]. }
  split; [by apply join_ne_self|].
  rewrite (join_relative o a c b Hc). destruct a; [|done].
  by destruct (OsPath.glue o EmptyString).
Qed.

Lemma analysis_root_plain (s : pyIDI) (p : string) :
  plain_dir o (analysis_root o s p) /\
  analysis_root o s p <> EmptyString.
Proof.
  destruct (stem_of_plain p) as [Hplain Hlast]. split.
  - exists "s"%char. split; [|by destruct o].
    unfold analysis_root. by rewrite (join_plain_last _ _ Hplain).
  - by apply join_plain_ne.
Qed.

Lemma drop_prefix_longer (a : string) (c : ascii) (x : string) :
  Str.drop_prefix (a +:+ String c x) a = None.
Proof.
  induction a as [|y a IH]; [done|].
  change (String y a +:+ String c x) with (String y (a +:+ String c x)).
  simpl. by rewrite Ascii.eqb_refl.
Qed.

(** A directory is not an entry of itself. *)
Lemma run_dir_self (d : string) (n : node) :
  plain_dir o d -> Glob.run_dir o d (d, n) = None.
Proof.
  intros (l & Hl & Hsep). unfold Glob.run_dir, Glob.entry_of. cbn [fst snd].
  unfold OsPath.join, OsPath.glue. rewrite Hl, Hsep.
  rewrite drop_prefix_longer. by destruct n.
Qed.

End FirstRun.

Section Mkdir.
Implicit Types (w : world).

Lemma os_mkdir_new w p :
  p <> EmptyString -> fs w !! p = None -> parent_check w p = Ok tt ->
  os_mkdir p w = Ok (with_fs (<[p := Dir]> (fs w)) w).
Proof.
  intros Hp Hnew Hparent. unfold os_mkdir. destruct p; [done|].
  by rewrite Hnew, Hparent.
Qed.

(** Making the directory [d] does not change what the glob finds in it. *)
Lemma glob_runs_mkdir w d :
  plain_dir (os w) d -> fs w !! d = None ->
  Glob.glob_runs (with_fs (<[d := Dir]> (fs w)) w) d ≡ₚ Glob.glob_runs w d.
Proof.
  intros Hd Hnew. unfold Glob.glob_runs. cbn [fs os with_fs].
  rewrite (map_to_list_insert _ _ _ Hnew). cbn [omap list_omap].
  by rewrite (run_dir_self _ _ _ Hd).
Qed.

End Mkdir.

(** X19. On either platform the first run of a video is [analysis_001],
    for a video path without drive prefix and an analysis root without
    pattern characters: when the glob finds no run below the analysis
    root, which is made if it is not there, [create_analysis_directory]
    returns, makes that one directory and records both paths in the
    session. *)
Theorem create_analysis_directory_first_run (st : state) (p : string) :
  let o := os (env st) in
  let ra := analysis_root o (self st) p in
  let run := OsPath.join o ra "analysis_001" in
  cih_file (self st) = VStr p ->
  literal_paths st p ->
  directory_ready (env st) (root (self st)) ->
  fs (env st) !! ra = None \/ fs (env st) !! ra = Some Dir ->
  Glob.glob_runs (env st) ra = [] ->
  fs (env st) !! run = None ->
  create_analysis_directory st
  = (Ok tt,
     {| self := with_root_this_analysis (Some run)
                  (with_root_analysis (Some ra) (self st));
        env := with_fs (<[run := Dir]> (<[ra := Dir]> (fs (env st))))
                 (env st) |}).
Proof.
  intros o ra run Hfile _ Hroot Hra Hglob Hrun.
  destruct (stem_of_plain o p) as [Hplain Hlast].
  destruct (analysis_root_plain o (self st) p) as [Hdir Hne].
  fold ra in Hdir, Hne.
  assert (plain_name o "analysis_001") as Hname by (by destruct o).
  destruct (join_plain_ne o ra _ Hname) as [Hrun_ra Hrun_ne]. fold run in Hrun_ra, Hrun_ne.
  (* the state once the analysis root is there *)
  set (w1 := with_fs (<[ra := Dir]> (fs (env st))) (env st)).
  assert ((if os_path_exists (env st) ra then mret tt else syscall (os_mkdir ra))
            {| self := with_root_analysis (Some ra) (self st); env := env st |}
          = (Ok tt, {| self := with_root_analysis (Some ra) (self st); env := w1 |}))
    as Hmk.
  { unfold os_path_exists. destruct Hra as [Hnone|Hthere].
    - rewrite Hnone. rewrite bool_decide_eq_false_2 by (by intros [? ?]).
      unfold syscall. cbn [env self].
      rewrite os_mkdir_new; [done..|].
      by apply parent_check_ready.
    - rewrite Hthere. rewrite bool_decide_eq_true_2 by (by eexists).
      unfold w1. rewrite insert_id by done. by destruct (env st). }
  assert (Glob.glob_runs w1 ra = []) as Hglob1.
  { destruct Hra as [Hnone|Hthere].
    - apply Permutation_nil_r. rewrite <- Hglob. by apply glob_runs_mkdir.
    - unfold w1. rewrite insert_id by done. by destruct (env st). }
  unfold create_analysis_directory.
  erewrite bind_returns by reflexivity.
  erewrite bind_returns by (unfold lift; by rewrite Hfile).
  erewrite bind_returns by (unfold lift; by rewrite stem_of_index).
  erewrite bind_returns by reflexivity.
  erewrite bind_returns by exact Hmk.
  erewrite bind_returns by reflexivity.
  cbn [env self].
  change (OsPath.join (os (env st)) (root (self st))
            (stem_of (os (env st)) p +:+ "_pyidi_analysis")) with ra.
  change (os (env st)) with o. rewrite Hglob1.
  erewrite bind_returns by reflexivity.
  erewrite bind_returns by reflexivity.
  erewrite bind_returns by reflexivity.
  unfold syscall. cbn [env self].
  change ("analysis_" +:+ Str.rjust 3 "0" (PyInt.str 1)) with "analysis_001".
  fold run.
  rewrite os_mkdir_new; [done|done|..].
  - cbn [fs w1 with_fs]. by rewrite lookup_insert_ne.
  - apply (parent_check_ready w1 ra "analysis_001"); [|done].
    right. split; [done|]. cbn [fs w1 with_fs]. by rewrite lookup_insert_eq.
Qed.

Lemma create_analysis_directory_first_run_witness :
  let st := Example.fresh Windows in
  create_analysis_directory st
  = (Ok tt,
     {| self := with_root_this_analysis
                  (Some "video_pyidi_analysis\analysis_001")
                  (with_root_analysis (Some "video_pyidi_analysis") (self st));
        env := with_fs
                 (<["video_pyidi_analysis\analysis_001" := Dir]>
                    (<["video_pyidi_analysis" := Dir]> (fs (env st))))
                 (env st) |}).
Proof.
  intros st.
  apply (create_analysis_directory_first_run st "video.cih").
  - reflexivity.
  - split_and!; reflexivity.
  - by left.
  - by left.
  - reflexivity.
  - reflexivity.
Defined.

Section LastRun.

(** The last path in the order of the strings is one of the paths. *)
Lemma index_m1_sorted (analyses : list string) :
  analyses <> [] ->
  exists last_an, Str.index_m1 (sorted analyses) = Ok last_an /\
                  last_an ∈ analyses.
Proof.
  intros Hne. unfold Str.index_m1, sorted.
  pose proof (merge_sort_Permutation String.le analyses) as Hperm.
  destruct (reverse (merge_sort String.le analyses)) as [|x l] eqn:Hrev.
  - apply (f_equal reverse) in Hrev. rewrite reverse_involutive in Hrev.
    rewrite Hrev in Hperm. by apply Permutation_nil_l in Hperm.
  - exists x. split; [done|]. rewrite <- Hperm.
    apply elem_of_reverse. rewrite Hrev. by left.
Qed.

Lemma index_m1_sorted_nonempty (analyses : list string) (x : string) :
  Str.index_m1 (sorted analyses) = Ok x -> analyses <> [].
Proof. by intros H ->. Qed.

(** A path without backslash has no last-but-one piece. *)
Lemma last_run_number_without_backslash (analyses : list string) (st : state) :
  analyses <> [] ->
  (forall q, q ∈ analyses -> Str.all not_backslash q = true) ->
  last_run_number analyses st
  = (Raise (IndexError "list index out of range"), st).
Proof.
  intros Hne Hall.
  destruct (index_m1_sorted analyses Hne) as (last_an & Hlast & Hin).
  unfold last_run_number. destruct analyses as [|a0 analyses]; [done|].
  erewrite bind_returns by (unfold lift; by rewrite Hlast).
  apply bind_raises. unfold lift.
  by rewrite (split_without Str.backslash last_an (Hall _ Hin)).
Qed.

Lemma digits_plain (o : platform) (s : string) :
  Str.all is_digit s = true -> Str.any (OsPath.is_sep o) s = false.
Proof.
  induction s as [|x s IH]; [done|]. simpl.
  intros [Hx Hs]%andb_true_iff. rewrite (IH Hs), orb_false_r.
  destruct (digit_not_special x Hx) as (_ & _ & _ & Hb & Hsl).
  apply Ascii.eqb_neq in Hb, Hsl. destruct o; simpl; by rewrite ?Hb, ?Hsl.
Qed.

End LastRun.

(** X20. Where no path that the glob finds holds a backslash (the paths
    of a machine whose separator is the slash), every call after the first
    run fails, for a video path without drive prefix and an analysis root
    without pattern characters: with a run in the analysis root,
    [create_analysis_directory] raises [IndexError] in the [print], having
    assigned [root_analysis] and nothing else; no directory is made and
    nothing is printed. *)
Theorem create_analysis_directory_without_backslash (st : state) (p : string) :
  let ra := analysis_root (os (env st)) (self st) p in
  cih_file (self st) = VStr p ->
  literal_paths st p ->
  is_Some (fs (env st) !! ra) ->
  Glob.glob_runs (env st) ra <> [] ->
  (forall q, q ∈ Glob.glob_runs (env st) ra -> Str.all not_backslash q = true) ->
  create_analysis_directory st
  = (Raise (IndexError "list index out of range"),
     {| self := with_root_analysis (Some ra) (self st); env := env st |}).
Proof.
  intros ra Hfile _ Hthere Hruns Hall.
  unfold create_analysis_directory.
  erewrite bind_returns by reflexivity.
  erewrite bind_returns by (unfold lift; by rewrite Hfile).
  erewrite bind_returns by (unfold lift; by rewrite stem_of_index).
  erewrite bind_returns by reflexivity.
  change (OsPath.join (os (env st)) (root (self st))
            (stem_of (os (env st)) p +:+ "_pyidi_analysis")) with ra.
  unfold os_path_exists. rewrite bool_decide_eq_true_2 by done.
  erewrite bind_returns by reflexivity.
  erewrite bind_returns by reflexivity.
  apply bind_raises. cbn [env].
  by apply last_run_number_without_backslash.
Qed.

Lemma create_analysis_directory_without_backslash_witness :
  let st := Example.archive Posix ["analysis_001"] in
  create_analysis_directory st
  = (Raise (IndexError "list index out of range"),
     {| self := with_root_analysis (Some "video_pyidi_analysis") (self st);
        env := env st |}).
Proof.
  intros st.
  apply (create_analysis_directory_without_backslash st "video.cih").
  - reflexivity.
  - split_and!; reflexivity.
  - exists Dir. vm_compute. reflexivity.
  - vm_compute. discriminate.
  - intros q Hq. vm_compute in Hq.
    apply list_elem_of_singleton in Hq as ->. vm_compute. reflexivity.
Defined.

(** X21. Where the separator is the backslash the versioner counts on from
    the last run in the order of the strings, for a video path without
    drive prefix and an analysis root without pattern characters: when
    that last run is the one that the versioner numbered [k], a call
    prints its path and name, makes the directory numbered [k + 1] and
    records its path. *)
Theorem create_analysis_directory_next_run (st : state) (p : string) (k : Z) :
  let ra := analysis_root Windows (self st) p in
  let name i := "analysis_" +:+ Str.rjust 3 "0" (PyInt.str i) in
  let last_an :=
    OsPath.join Windows (OsPath.join Windows ra (name k)) EmptyString in
  let run := OsPath.join Windows ra (name (k + 1)) in
  os (env st) = Windows ->
  cih_file (self st) = VStr p ->
  literal_paths st p ->
  fs (env st) !! ra = Some Dir ->
  0 <= k /\ k + 1 < 2 ^ 53 ->
  Str.index_m1 (sorted (Glob.glob_runs (env st) ra)) = Ok last_an ->
  fs (env st) !! run = None ->
  create_analysis_directory st
  = (Ok tt,
     {| self := with_root_this_analysis (Some run)
                  (with_root_analysis (Some ra) (self st));
        env := with_fs (<[run := Dir]> (fs (env st)))
                 (with_stdout (stdout (env st) ++ [last_an +:+ " " +:+ name k])
                    (env st)) |}).
Proof.
  intros ra name last_an run Hos Hfile _ Hra [Hk0 Hk1] Hlast Hrun.
  destruct (analysis_root_plain Windows (self st) p) as [Hdir Hne].
  fold ra in Hdir, Hne.
  destruct (format_index (k + 1)) as (Hfmt & Hne1 & Hall1 & _); [lia|].
  assert (plain_name Windows (name (k + 1))) as Hname.
  { split; [done|]. unfold name. rewrite any_append.
    by rewrite (digits_plain Windows _ Hall1). }
  destruct (join_plain_ne Windows ra _ Hname) as [Hrun_ra Hrun_ne].
  fold run in Hrun_ra, Hrun_ne.
  unfold create_analysis_directory.
  erewrite bind_returns by reflexivity.
  erewrite bind_returns by (unfold lift; by rewrite Hfile).
  erewrite bind_returns by (unfold lift; by rewrite stem_of_index).
  rewrite Hos.
  erewrite bind_returns by reflexivity.
  change (OsPath.join Windows (root (self st))
            (stem_of Windows p +:+ "_pyidi_analysis")) with ra.
  unfold os_path_exists. rewrite bool_decide_eq_true_2 by (by eexists).
  erewrite bind_returns by reflexivity.
  erewrite bind_returns by reflexivity.
  cbn [env].
  destruct (last_run_number_of_last
              {| self := with_root_analysis (Some ra) (self st); env := env st |}
              (Glob.glob_runs (env st) ra) ra k Hdir ltac:(lia) Hlast
              (index_m1_sorted_nonempty _ _ Hlast)) as [_ Hread].
  erewrite bind_returns by exact Hread.
  erewrite bind_returns by (unfold lift; by rewrite Hfmt).
  erewrite bind_returns by reflexivity.
  unfold syscall. cbn [env self]. fold (name (k + 1)). fold run.
  rewrite os_mkdir_new; [done|done|done|].
  match goal with |- parent_check ?w _ = _ => set (w2 := w) end.
  assert (os w2 = Windows) as Hos2 by exact Hos.
  pose proof (parent_check_ready w2 ra (name (k + 1))) as Hcheck.
  rewrite Hos2 in Hcheck. apply Hcheck; [|done].
  right. rewrite Hos2. by split.
Qed.

Lemma create_analysis_directory_next_run_witness :
  let st := Example.archive Windows ["analysis_041"] in
  create_analysis_directory st
  = (Ok tt,
     {| self := with_root_this_analysis
                  (Some "video_pyidi_analysis\analysis_042")
                  (with_root_analysis (Some "video_pyidi_analysis") (self st));
        env := with_fs
                 (<["video_pyidi_analysis\analysis_042" := Dir]> (fs (env st)))
                 (with_stdout
                    (stdout (env st)
                     ++ ["video_pyidi_analysis\analysis_041\ analysis_041"])
                    (env st)) |}).
Proof.
  intros st.
  apply (create_analysis_directory_next_run st "video.cih" 41).
  - reflexivity.
  - reflexivity.
  - split_and!; reflexivity.
  - vm_compute. reflexivity.
  - lia.
  - vm_compute. reflexivity.
  - vm_compute. reflexivity.
Defined.

(** ** The coordinator and the number of its run *)

Section Numbered.




End Numbered.



